(** * The giveaway bot of [bot.py]: repository, handlers and their properties

    The bot keeps three documents in memory (codes, users, banned list),
    rewrites the matching JSON file after every mutation, and serves one
    chat command at a time.  Each handler is a function from the bot and
    the command's inputs to a reply and the bot afterwards.  What the
    handler reads from outside (the clock, the random generator) and the
    built-ins [int] and [str.upper] are arguments: every theorem holds
    whatever they return.

    Message texts are not modelled; a reply is the branch of the handler
    that produced it, with the values the message prints. *)

From Stdlib Require Import ZArith QArith DecimalString Ascii String.
From stdpp Require Import gmap strings list fin_maps sorting.

Local Open Scope string_scope.

(** ** Built-ins of the language *)

(** [str(n)] for an integer: decimal digits with a leading minus sign. *)
Definition str (n : Z) : string := NilZero.string_of_int (Z.to_int n).

(** [x or 'N/A'] for an optional text field: [None] and the empty string
    are both falsy. *)
Definition or_na (x : option string) : string :=
  match x with
  | None => "N/A"
  | Some s => if decide (s = "") then "N/A" else s
  end.

(** [' '.join(l)] *)
Fixpoint join_space (l : list string) : string :=
  match l with
  | [] => ""
  | [x] => x
  | x :: r => x ++ " " ++ join_space r
  end.

(** [l.remove(x)]: drops the first occurrence. *)
Fixpoint remove_first (x : string) (l : list string) : list string :=
  match l with
  | [] => []
  | y :: r => if decide (x = y) then r else y :: remove_first x r
  end.

(** Exceptions the handlers can meet. *)
Inductive PyError := ValueError | ZeroDivisionError | TypeError | KeyError.

(** [a / b] on numbers, with exact rationals in the place of floats. *)
Definition truediv (a b : nat) : PyError + Q :=
  match b with
  | O => inl ZeroDivisionError
  | _ => inr (inject_Z (Z.of_nat a) / inject_Z (Z.of_nat b))%Q
  end.

(** ** Documents *)

(** The [redeemer] dictionary of a code. *)
Record Redeemer := {
  r_user_id : string;
  r_username : string;
  r_first_name : string;
  r_last_name : string;
  r_date : string
}.

(** A value of the [codes] dictionary; [redeemer] is [None] or a dictionary. *)
Record Code := {
  prize : string;
  redeemed : bool;
  redeemer : option Redeemer;
  created_date : string
}.

(** An element of a user's [redeemed_codes] list. *)
Record Redemption := {
  rd_code : string;
  rd_prize : string;
  rd_date : string
}.

(** A value of the [users] dictionary. *)
Record User := {
  username : string;
  first_name : string;
  last_name : string;
  join_date : string;
  redeemed_codes : list Redemption
}.

(** [update.effective_user] as the handlers read it. *)
Record TgUser := {
  id : Z;
  tg_username : option string;
  tg_first_name : option string;
  tg_last_name : option string
}.

(** One call of [save_data]: the file and the document written to it. *)
Inductive SaveCall :=
| SaveCodes (doc : gmap string Code)
| SaveUsers (doc : gmap string User)
| SaveBanned (doc : list string).

(** [bot_instance], with the calls of [save_data] made so far. *)
Record Bot := {
  codes : gmap string Code;
  users : gmap string User;
  banned_users : list string;
  saved : list SaveCall
}.

Definition set_codes (b : Bot) (d : gmap string Code) : Bot :=
  {| codes := d; users := users b; banned_users := banned_users b;
     saved := saved b |}.

Definition set_users (b : Bot) (d : gmap string User) : Bot :=
  {| codes := codes b; users := d; banned_users := banned_users b;
     saved := saved b |}.

Definition set_banned (b : Bot) (d : list string) : Bot :=
  {| codes := codes b; users := users b; banned_users := d;
     saved := saved b |}.

Definition log_save (b : Bot) (c : SaveCall) : Bot :=
  {| codes := codes b; users := users b; banned_users := banned_users b;
     saved := saved b ++ [c] |}.

(** [save_data(CODES_FILE, bot_instance.codes)] and its two siblings.  A
    failing write is caught inside [save_data], so the call always returns. *)
Definition save_codes (b : Bot) : Bot := log_save b (SaveCodes (codes b)).
Definition save_users (b : Bot) : Bot := log_save b (SaveUsers (users b)).
Definition save_banned (b : Bot) : Bot := log_save b (SaveBanned (banned_users b)).

(** [GiveawayBot()] when no file exists: the defaults of [load_data]. *)
Definition fresh_bot : Bot :=
  {| codes := ∅; users := ∅; banned_users := []; saved := [] |}.

(** The three clock readings of one [redeem]: in [register_user], in the
    redeemer dictionary and in the user's record. *)
Record RedeemClock := {
  at_join : string;
  at_snapshot : string;
  at_record : string
}.

(** One result of [random.choices(ALPHABET, k=4)]: four positions in the
    alphabet, each read modulo its length. *)
Record Draw := { k0 : nat; k1 : nat; k2 : nat; k3 : nat }.

(** [string.ascii_uppercase + string.digits] *)
Definition ALPHABET : list ascii :=
  list_ascii_of_string "ABCDEFGHIJKLMNOPQRSTUVWXYZ0123456789".

Definition pick (i : nat) : ascii := nth (i mod 36) ALPHABET "A"%char.

(** [''.join(random.choices(..., k=4))] *)
Definition suffix_of (d : Draw) : string :=
  String (pick (k0 d)) (String (pick (k1 d))
    (String (pick (k2 d)) (String (pick (k3 d)) EmptyString))).

(** ** Replies *)

Inductive RedeemReply :=
| RBanned
| RUsage
| RInvalidCode
| RAlreadyRedeemed (redeemer_info : Redeemer)
| RSuccess (code prize : string)
| RRaised (e : PyError).

Inductive StartReply := SBanned | SWelcome.

Inductive AdminReply :=
| AAdminOnly
| AUsage
| AExists (code : string)
| AAdded (code : string)
| AUnknown (code : string)
| APrizeSet (code prize : string)
| ADeleted (code : string)
| AReset.

Inductive GenReply :=
| GAdminOnly
| GUsage
| GLimit
| GGenerated (num : Z) (generated_codes : list string)
| GNotInteger.

Inductive BanReply :=
| BAdminOnly
| BUsage
| BSelf
| BBanned (user_id : string)
| BAlready (user_id : string)
| BUnbanned (user_id : string)
| BNotBanned (user_id : string)
| BInvalidId
| BRaised (e : PyError).

Record Stats := {
  total_codes : nat;
  redeemed_count : nat;
  available : Z;
  total_users : nat;
  banned_count : nat;
  active_users : Z;
  success_rate : Q
}.

Inductive StatsReply :=
| StAdminOnly
| StReport (r : Stats)
| StRaised (e : PyError).

(** ** The handlers *)

Section Handlers.

(** [ADMIN_ID], the environment variable; [main] refuses to start the
    handlers when it is unset. *)
Variable ADMIN_ID : string.

(** The built-in [int] on a command argument; [None] is [ValueError]. *)
Variable py_int : string → option Z.

(** The built-in [s.upper()] on a command argument. *)
Variable upper : string → string.

(** [str(x)] for an argument [x] that is already text: no input raises. *)
Definition str_text (x : string) : PyError + string := inr x.

Definition is_admin (user_id : Z) : bool :=
  bool_decide (str user_id = ADMIN_ID).

Definition is_banned (b : Bot) (user_id : Z) : bool :=
  bool_decide (str user_id ∈ banned_users b).

Definition new_user (user : TgUser) (now : string) : User :=
  {| username := or_na (tg_username user);
     first_name := or_na (tg_first_name user);
     last_name := or_na (tg_last_name user);
     join_date := now;
     redeemed_codes := [] |}.

Definition register_user (b : Bot) (user : TgUser) (now : string) : Bot :=
  let user_id := str (id user) in
  match users b !! user_id with
  | None => save_users (set_users b (<[user_id := new_user user now]> (users b)))
  | Some _ => b
  end.

Definition start (b : Bot) (user : TgUser) (now : string) : StartReply * Bot :=
  if is_banned b (id user) then (SBanned, b)
  else (SWelcome, register_user b user now).

Definition snapshot (user : TgUser) (now : string) : Redeemer :=
  {| r_user_id := str (id user);
     r_username := or_na (tg_username user);
     r_first_name := or_na (tg_first_name user);
     r_last_name := or_na (tg_last_name user);
     r_date := now |}.

Definition claim (c : Code) (r : Redeemer) : Code :=
  {| prize := prize c; redeemed := true; redeemer := Some r;
     created_date := created_date c |}.

Definition add_redemption (u : User) (r : Redemption) : User :=
  {| username := username u; first_name := first_name u;
     last_name := last_name u; join_date := join_date u;
     redeemed_codes := redeemed_codes u ++ [r] |}.

Definition redeem (b : Bot) (user : TgUser) (args : list string)
    (clock : RedeemClock) : RedeemReply * Bot :=
  if is_banned b (id user) then (RBanned, b)
  else
    let b := register_user b user (at_join clock) in
    match args with
    | [] => (RUsage, b)
    | raw :: _ =>
      let code := upper raw in
      let user_id := str (id user) in
      match codes b !! code with
      | None => (RInvalidCode, b)
      | Some c =>
        if redeemed c then
          match redeemer c with
          | Some redeemer_info => (RAlreadyRedeemed redeemer_info, b)
          | None => (RRaised TypeError, b)
          end
        else
          let c' := claim c (snapshot user (at_snapshot clock)) in
          let b := set_codes b (<[code := c']> (codes b)) in
          match users b !! user_id with
          | None => (RRaised KeyError, b)
          | Some u =>
            let rec_ := {| rd_code := code; rd_prize := prize c';
                           rd_date := at_record clock |} in
            let b := set_users b (<[user_id := add_redemption u rec_]> (users b)) in
            let b := save_users (save_codes b) in
            (RSuccess code (prize c'), b)
          end
      end
    end.

Definition new_code (now : string) : Code :=
  {| prize := "No prize set"; redeemed := false; redeemer := None;
     created_date := now |}.

Definition addcode (b : Bot) (caller : Z) (args : list string) (now : string)
    : AdminReply * Bot :=
  if negb (is_admin caller) then (AAdminOnly, b)
  else
    match args with
    | [] => (AUsage, b)
    | raw :: _ =>
      let code := upper raw in
      match codes b !! code with
      | Some _ => (AExists code, b)
      | None =>
        let b := set_codes b (<[code := new_code now]> (codes b)) in
        (AAdded code, save_codes b)
      end
    end.

Definition set_prize (c : Code) (p : string) : Code :=
  {| prize := p; redeemed := redeemed c; redeemer := redeemer c;
     created_date := created_date c |}.

Definition addprize (b : Bot) (caller : Z) (args : list string)
    : AdminReply * Bot :=
  if negb (is_admin caller) then (AAdminOnly, b)
  else
    match args with
    | raw :: ((_ :: _) as rest) =>
      let code := upper raw in
      let prize := join_space rest in
      match codes b !! code with
      | None => (AUnknown code, b)
      | Some c =>
        let b := set_codes b (<[code := set_prize c prize]> (codes b)) in
        (APrizeSet code prize, save_codes b)
      end
    | _ => (AUsage, b)
    end.

Definition delcode (b : Bot) (caller : Z) (args : list string)
    : AdminReply * Bot :=
  if negb (is_admin caller) then (AAdminOnly, b)
  else
    match args with
    | [] => (AUsage, b)
    | raw :: _ =>
      let code := upper raw in
      match codes b !! code with
      | None => (AUnknown code, b)
      | Some _ =>
        let b := set_codes b (delete code (codes b)) in
        (ADeleted code, save_codes b)
      end
    end.

(** The [while True] loop of [gencode]: draw until [prefix + suffix] is not
    a key.  [None] when the draws given run out while it is still looping. *)
Fixpoint draw_code (d : gmap string Code) (prefix : string)
    (draws : list Draw) : option (string * list Draw) :=
  match draws with
  | [] => None
  | x :: rest =>
    let code := prefix ++ suffix_of x in
    match d !! code with
    | None => Some (code, rest)
    | Some _ => draw_code d prefix rest
    end
  end.

(** The [for _ in range(num)] loop; [now] is the clock reading of each
    iteration, indexed by the number of codes generated before it. *)
Fixpoint gen_loop (n : nat) (b : Bot) (prefix : string) (draws : list Draw)
    (now : nat → string) (generated_codes : list string)
    : option (list string * Bot) :=
  match n with
  | O => Some (generated_codes, b)
  | S n' =>
    match draw_code (codes b) prefix draws with
    | None => None
    | Some (code, rest) =>
      let b := set_codes b
                 (<[code := new_code (now (length generated_codes))]> (codes b)) in
      gen_loop n' b prefix rest now (generated_codes ++ [code])
    end
  end.

Definition gencode (b : Bot) (caller : Z) (args : list string)
    (draws : list Draw) (now : nat → string) : option (GenReply * Bot) :=
  if negb (is_admin caller) then Some (GAdminOnly, b)
  else
    match args with
    | a0 :: a1 :: _ =>
      match py_int a0 with
      | None => Some (GNotInteger, b)
      | Some num =>
        let prefix := upper a1 in
        if (50 <? num)%Z then Some (GLimit, b)
        else
          match gen_loop (Z.to_nat num) b prefix draws now [] with
          | None => None
          | Some (generated_codes, b) =>
            Some (GGenerated num generated_codes, save_codes b)
          end
      end
    | _ => Some (GUsage, b)
    end.

Definition ban_user (b : Bot) (caller : Z) (args : list string)
    : BanReply * Bot :=
  if negb (is_admin caller) then (BAdminOnly, b)
  else
    match args with
    | [] => (BUsage, b)
    | a0 :: _ =>
      match str_text a0 with
      | inr user_id =>
        if decide (user_id = ADMIN_ID) then (BSelf, b)
        else if decide (user_id ∈ banned_users b) then (BAlready user_id, b)
        else
          let b := set_banned b (banned_users b ++ [user_id]) in
          (BBanned user_id, save_banned b)
      | inl ValueError => (BInvalidId, b)
      | inl e => (BRaised e, b)
      end
    end.

Definition unban_user (b : Bot) (caller : Z) (args : list string)
    : BanReply * Bot :=
  if negb (is_admin caller) then (BAdminOnly, b)
  else
    match args with
    | [] => (BUsage, b)
    | a0 :: _ =>
      match str_text a0 with
      | inr user_id =>
        if decide (user_id ∈ banned_users b) then
          let b := set_banned b (remove_first user_id (banned_users b)) in
          (BUnbanned user_id, save_banned b)
        else (BNotBanned user_id, b)
      | inl ValueError => (BInvalidId, b)
      | inl e => (BRaised e, b)
      end
    end.

Definition reset_code (c : Code) : Code :=
  {| prize := prize c; redeemed := false; redeemer := None;
     created_date := created_date c |}.

Definition clear_history (u : User) : User :=
  {| username := username u; first_name := first_name u;
     last_name := last_name u; join_date := join_date u;
     redeemed_codes := [] |}.

Definition resetgiveaway (b : Bot) (caller : Z) : AdminReply * Bot :=
  if negb (is_admin caller) then (AAdminOnly, b)
  else
    let b := set_codes b (reset_code <$> codes b) in
    let b := set_users b (clear_history <$> users b) in
    (AReset, save_users (save_codes b)).

(** [stats]: the rate expression is formatted whatever [total_codes] is;
    the words [if total_codes > 0 else 0%] after it are text of the message. *)
Definition stats (b : Bot) (caller : Z) : StatsReply :=
  if negb (is_admin caller) then StAdminOnly
  else
    let total := size (codes b) in
    let red := size (filter (λ kv, redeemed kv.2 = true) (codes b)) in
    let nusers := size (users b) in
    let nbanned := length (banned_users b) in
    match truediv red total with
    | inl e => StRaised e
    | inr ratio =>
      StReport {| total_codes := total; redeemed_count := red;
                  available := Z.of_nat total - Z.of_nat red;
                  total_users := nusers; banned_count := nbanned;
                  active_users := Z.of_nat nusers - Z.of_nat nbanned;
                  success_rate := (ratio * 100)%Q |}
    end.

(** ** Commands and reachable states *)

(** The commands that can change the bot, each with what its handler reads. *)
Inductive Command :=
| CmdStart (user : TgUser) (now : string)
| CmdRedeem (user : TgUser) (args : list string) (clock : RedeemClock)
| CmdAddcode (caller : Z) (args : list string) (now : string)
| CmdAddprize (caller : Z) (args : list string)
| CmdDelcode (caller : Z) (args : list string)
| CmdGencode (caller : Z) (args : list string) (draws : list Draw)
    (now : nat → string)
| CmdBan (caller : Z) (args : list string)
| CmdUnban (caller : Z) (args : list string)
| CmdReset (caller : Z).

(** The bot after a command; [None] when the handler does not return. *)
Definition exec (b : Bot) (c : Command) : option Bot :=
  match c with
  | CmdStart user now => Some (start b user now).2
  | CmdRedeem user args clock => Some (redeem b user args clock).2
  | CmdAddcode caller args now => Some (addcode b caller args now).2
  | CmdAddprize caller args => Some (addprize b caller args).2
  | CmdDelcode caller args => Some (delcode b caller args).2
  | CmdGencode caller args draws now => snd <$> gencode b caller args draws now
  | CmdBan caller args => Some (ban_user b caller args).2
  | CmdUnban caller args => Some (unban_user b caller args).2
  | CmdReset caller => Some (resetgiveaway b caller).2
  end.

(** Commands are handled one after the other. *)
Inductive reaches (b0 : Bot) : Bot → Prop :=
| reaches_here : reaches b0 b0
| reaches_exec b c b' : reaches b0 b → exec b c = Some b' → reaches b0 b'.

(** A [delcode] that removes a code whose [redeemed] flag is set. *)
Definition deletes_redeemed (b : Bot) (c : Command) : bool :=
  match c with
  | CmdDelcode caller (raw :: _) =>
    is_admin caller &&
    match codes b !! upper raw with
    | Some x => redeemed x
    | None => false
    end
  | _ => false
  end.

(** Reachability by commands none of which deletes a redeemed code. *)
Inductive reaches_keeping (b0 : Bot) : Bot → Prop :=
| keeping_here : reaches_keeping b0 b0
| keeping_exec b c b' :
    reaches_keeping b0 b → deletes_redeemed b c = false →
    exec b c = Some b' → reaches_keeping b0 b'.

(** A run of [redeem] calls. *)
Fixpoint redeem_all (b : Bot)
    (calls : list (TgUser * list string * RedeemClock)) : Bot :=
  match calls with
  | [] => b
  | (user, args, clock) :: rest => redeem_all (redeem b user args clock).2 rest
  end.

End Handlers.

(** ** Counting both sides of a redemption *)

(** The code was redeemed by the user with key [uid]. *)
Definition redeemed_by (uid : string) (c : Code) : Prop :=
  r_user_id <$> redeemer c = Some uid.

Global Instance redeemed_by_dec uid c : Decision (redeemed_by uid c).
Proof. unfold redeemed_by. apply _. Defined.

(** Number of codes whose redeemer is [uid]. *)
Definition claimed_by (b : Bot) (uid : string) : nat :=
  size (filter (λ kv, redeemed_by uid kv.2) (codes b)).

(** Number of records in the history of [uid]; none for an unknown user. *)
Definition history_len (b : Bot) (uid : string) : nat :=
  match users b !! uid with
  | Some u => length (redeemed_codes u)
  | None => 0
  end.

(** One for a proposition that holds, zero otherwise. *)
Definition one_if (P : Prop) `{Decision P} : nat := if decide P then 1 else 0.

(** What a command does to the two counts of a user. *)
Inductive CountStep (b b' : Bot) (uid : string) : Prop :=
| count_same :
    claimed_by b' uid = claimed_by b uid →
    history_len b' uid = history_len b uid → CountStep b b' uid
| count_both :
    claimed_by b' uid = S (claimed_by b uid) →
    history_len b' uid = S (history_len b uid) → CountStep b b' uid
| count_zero :
    claimed_by b' uid = 0 → history_len b' uid = 0 → CountStep b b' uid.

(** The flag and the redeemer dictionary are set together. *)
Definition flag_agrees (b : Bot) : Prop :=
  ∀ k c, codes b !! k = Some c → redeemed c = false → redeemer c = None.

(** Every key is its own uppercase form. *)
Definition keys_normalized (upper : string → string) (b : Bot) : Prop :=
  ∀ k, is_Some (codes b !! k) → upper k = k.

(** The suffixes among [draws] that are free under [prefix] in [d]. *)
Definition free_suffixes (d : gmap string Code) (prefix : string)
    (draws : list Draw) : gset string :=
  list_to_set
    (filter (λ s, d !! (prefix ++ s) = None) (suffix_of <$> draws)).

(** ** Read-only handlers *)

(** [sorted(l, key=..., reverse=True)]: descending by key, entries with
    equal keys in the order they had in [l]. *)
Fixpoint insert_desc {A} (key : A → nat) (x : A) (l : list A) : list A :=
  match l with
  | [] => [x]
  | y :: r =>
    if (key x <? key y)%nat then y :: insert_desc key x r else x :: y :: r
  end.

Definition sorted_desc {A} (key : A → nat) (l : list A) : list A :=
  foldr (insert_desc key) [] l.

Inductive Medal := Gold | Silver | Bronze | Ribbon.

(** The list [medals] of [leaderboard]: three medals and seven ribbons. *)
Definition medals : list Medal := [Gold; Silver; Bronze] ++ replicate 7 Ribbon.

(** One line of the leaderboard message. *)
Record BoardRow := {
  row_medal : Medal;
  row_rank : nat;
  row_name : string;
  row_count : nat
}.

Inductive BoardReply :=
| LNoUsers
| LNoWinners
| LBoard (rows : list BoardRow)
| LIndexError.

(** The sort key of [leaderboard]. *)
Definition codes_count (x : string * User) : nat := length (redeemed_codes x.2).

(** The loop over [enumerate(sorted_users[:10], 1)]; [None] when
    [medals[i-1]] is out of range. *)
Fixpoint board_rows (i : nat) (top : list (string * User))
    : option (list BoardRow) :=
  match top with
  | [] => Some []
  | x :: rest =>
    if (0 <? codes_count x)%nat then
      match medals !! (i - 1) with
      | Some m =>
        cons {| row_medal := m; row_rank := i; row_name := first_name x.2;
                row_count := codes_count x |} <$> board_rows (S i) rest
      | None => None
      end
    else board_rows (S i) rest
  end.

(** [leaderboard]; [items] is [bot_instance.users.items()], the entries of
    [users] in the order of the dictionary. *)
Definition leaderboard (b : Bot) (items : list (string * User)) : BoardReply :=
  if decide (users b = ∅) then LNoUsers
  else
    match board_rows 1 (take 10 (sorted_desc codes_count items)) with
    | None => LIndexError
    | Some [] => LNoWinners
    | Some rows => LBoard rows
    end.

(** One entry of the [listcodes] message; [line_by] is the first name of
    the redeemer, printed for a redeemed code. *)
Record CodeLine := {
  line_code : string;
  line_prize : string;
  line_redeemed : bool;
  line_by : option string
}.

Inductive ListReply :=
| LcAdminOnly
| LcNoCodes
| LcLines (lines : list CodeLine)
| LcRaised (e : PyError).

Fixpoint code_lines (items : list (string * Code)) : PyError + list CodeLine :=
  match items with
  | [] => inr []
  | (code, data) :: rest =>
    if redeemed data then
      match redeemer data with
      | Some r =>
        match code_lines rest with
        | inr lines =>
          inr ({| line_code := code; line_prize := prize data;
                  line_redeemed := true;
                  line_by := Some (r_first_name r) |} :: lines)
        | inl e => inl e
        end
      | None => inl TypeError
      end
    else
      match code_lines rest with
      | inr lines =>
        inr ({| line_code := code; line_prize := prize data;
                line_redeemed := false; line_by := None |} :: lines)
      | inl e => inl e
      end
  end.

Inductive BroadcastReply :=
| BcAdminOnly
| BcUsage
| BcDone (sent_count failed_count : nat) (attempted : list string).

(** The loop of [broadcast] over [users.keys()]; [delivers user_id] tells
    whether [send_message(chat_id=int(user_id), ...)] returns, any exception
    of the two calls being caught and counted as a failure.  The third
    component lists the ids a send was attempted for, in order. *)
Fixpoint broadcast_loop (banned : list string) (delivers : string → bool)
    (keys : list string) (sent failed : nat) (attempted : list string)
    : nat * nat * list string :=
  match keys with
  | [] => (sent, failed, attempted)
  | user_id :: rest =>
    if decide (user_id ∈ banned) then
      broadcast_loop banned delivers rest sent failed attempted
    else if delivers user_id then
      broadcast_loop banned delivers rest (S sent) failed (attempted ++ [user_id])
    else
      broadcast_loop banned delivers rest sent (S failed) (attempted ++ [user_id])
  end.

Section Views.

Variable ADMIN_ID : string.

(** [listcodes]; [items] is [bot_instance.codes.items()]. *)
Definition listcodes (b : Bot) (caller : Z) (items : list (string * Code))
    : ListReply :=
  if negb (is_admin ADMIN_ID caller) then LcAdminOnly
  else if decide (codes b = ∅) then LcNoCodes
  else
    match code_lines items with
    | inr lines => LcLines lines
    | inl e => LcRaised e
    end.

(** [broadcast]; [keys] is [bot_instance.users.keys()]. *)
Definition broadcast (b : Bot) (caller : Z) (args : list string)
    (keys : list string) (delivers : string → bool) : BroadcastReply :=
  if negb (is_admin ADMIN_ID caller) then BcAdminOnly
  else
    match args with
    | [] => BcUsage
    | _ :: _ =>
      let '(sent, failed, attempted) :=
        broadcast_loop (banned_users b) delivers keys 0 0 [] in
      BcDone sent failed attempted
    end.

End Views.

(** ** What a command can do to the documents *)

(** The elementary changes: each names the fields it rewrites and the
    calls of [save_data] it makes. *)
Inductive Effect (b b' : Bot) : Prop :=
| eff_register uid u0 :
    users b !! uid = None → redeemed_codes u0 = [] →
    users b' = <[uid := u0]> (users b) →
    codes b' = codes b → banned_users b' = banned_users b →
    saved b' = (saved b ++ [SaveUsers (users b')])%list →
    Effect b b'
| eff_claim k c r uid u rec :
    codes b !! k = Some c → redeemed c = false →
    users b !! uid = Some u → uid ∉ banned_users b →
    r_user_id r = uid → rd_code rec = k → rd_prize rec = prize c →
    codes b' = <[k := claim c r]> (codes b) →
    users b' = <[uid := add_redemption u rec]> (users b) →
    banned_users b' = banned_users b →
    saved b' = (saved b ++ [SaveCodes (codes b'); SaveUsers (users b')])%list →
    Effect b b'
| eff_new_codes (keys : list string) :
    (∀ k, k ∈ keys →
       codes b !! k = None ∧ ∃ t, codes b' !! k = Some (new_code t)) →
    (∀ k, k ∉ keys → codes b' !! k = codes b !! k) →
    users b' = users b → banned_users b' = banned_users b →
    saved b' = (saved b ++ [SaveCodes (codes b')])%list →
    Effect b b'
| eff_prize k c p :
    codes b !! k = Some c →
    codes b' = <[k := set_prize c p]> (codes b) →
    users b' = users b → banned_users b' = banned_users b →
    saved b' = (saved b ++ [SaveCodes (codes b')])%list →
    Effect b b'
| eff_delete k c :
    codes b !! k = Some c →
    codes b' = delete k (codes b) →
    users b' = users b → banned_users b' = banned_users b →
    saved b' = (saved b ++ [SaveCodes (codes b')])%list →
    Effect b b'
| eff_ban a :
    a ∉ banned_users b →
    banned_users b' = (banned_users b ++ [a])%list →
    codes b' = codes b → users b' = users b →
    saved b' = (saved b ++ [SaveBanned (banned_users b')])%list →
    Effect b b'
| eff_unban a :
    a ∈ banned_users b →
    banned_users b' = remove_first a (banned_users b) →
    codes b' = codes b → users b' = users b →
    saved b' = (saved b ++ [SaveBanned (banned_users b')])%list →
    Effect b b'
| eff_reset :
    codes b' = reset_code <$> codes b →
    users b' = clear_history <$> users b →
    banned_users b' = banned_users b →
    saved b' = (saved b ++ [SaveCodes (codes b'); SaveUsers (users b')])%list →
    Effect b b'.

(** Zero or more effects in a row. *)
Inductive Effects (b : Bot) : Bot → Prop :=
| effects_none : Effects b b
| effects_more b1 b2 : Effects b b1 → Effect b1 b2 → Effects b b2.

(** ** Invariants of the documents *)

(** The flag is set exactly when there is a redeemer dictionary. *)
Definition flag_iff_redeemer (b : Bot) : Prop :=
  ∀ k c, codes b !! k = Some c → redeemed c = true ↔ is_Some (redeemer c).

(** Every redeemer is a stored user whose history has a record of the code. *)
Definition redeemer_on_record (b : Bot) : Prop :=
  ∀ k c r, codes b !! k = Some c → redeemer c = Some r →
    ∃ u rec, users b !! r_user_id r = Some u ∧
             rec ∈ redeemed_codes u ∧ rd_code rec = k.

(** The document last written to each file, [d] when none was. *)
Fixpoint file_codes (l : list SaveCall) (d : gmap string Code)
    : gmap string Code :=
  match l with
  | [] => d
  | SaveCodes x :: r => file_codes r x
  | _ :: r => file_codes r d
  end.

Fixpoint file_users (l : list SaveCall) (d : gmap string User)
    : gmap string User :=
  match l with
  | [] => d
  | SaveUsers x :: r => file_users r x
  | _ :: r => file_users r d
  end.

Fixpoint file_banned (l : list SaveCall) (d : list string) : list string :=
  match l with
  | [] => d
  | SaveBanned x :: r => file_banned r x
  | _ :: r => file_banned r d
  end.

(** The three files hold what is in memory; a file never written counts
    as the default of [load_data]. *)
Definition files_in_sync (b : Bot) : Prop :=
  file_codes (saved b) ∅ = codes b ∧
  file_users (saved b) ∅ = users b ∧
  file_banned (saved b) [] = banned_users b.

(** The stored identity of a user: what [register_user] wrote. *)
Definition same_identity (u u' : User) : Prop :=
  username u' = username u ∧ first_name u' = first_name u ∧
  last_name u' = last_name u ∧ join_date u' = join_date u.

(** Users stay, with their identity. *)
Definition users_kept (b b' : Bot) : Prop :=
  ∀ uid u, users b !! uid = Some u →
    ∃ u', users b' !! uid = Some u' ∧ same_identity u u'.

(** ** Sample data *)

Definition tg (n : Z) (name : string) : TgUser :=
  {| id := n; tg_username := Some name; tg_first_name := Some name;
     tg_last_name := None |}.

Definition noon : RedeemClock :=
  {| at_join := "2024-01-01T12:00:00"; at_snapshot := "2024-01-01 12:00:00";
     at_record := "2024-01-01 12:00:00" |}.

Definition later : RedeemClock :=
  {| at_join := "2024-01-02T09:30:00"; at_snapshot := "2024-01-02 09:30:00";
     at_record := "2024-01-02 09:30:00" |}.

(** A small reading of [int]: one or two decimal digits. *)
Definition int_2digits (s : string) : option Z :=
  match s with
  | String a EmptyString =>
    let x := N_of_ascii a in
    if ((48 <=? x) && (x <=? 57))%N then Some (Z.of_N (x - 48)) else None
  | String a (String c EmptyString) =>
    let x := N_of_ascii a in
    let y := N_of_ascii c in
    if ((48 <=? x) && (x <=? 57) && (48 <=? y) && (y <=? 57))%N
    then Some (Z.of_N (10 * (x - 48) + (y - 48))) else None
  | _ => None
  end.

Definition upper_ascii (c : ascii) : ascii :=
  let n := N_of_ascii c in
  if ((97 <=? n) && (n <=? 122))%N then ascii_of_N (n - 32) else c.

(** A reading of [str.upper] for ASCII text: the letters a-z are mapped,
    every other character is kept. *)
Fixpoint ascii_upper (s : string) : string :=
  match s with
  | EmptyString => EmptyString
  | String c r => String (upper_ascii c) (ascii_upper r)
  end.

(** Admin 1 adds code A. *)
Definition bot_code_a : Bot :=
  (addcode "1" ascii_upper fresh_bot 1 ["A"] "2024-01-01T00:00:00").2.

(** ... and user 42 redeems it. *)
Definition bot_claimed : Bot :=
  (redeem ascii_upper bot_code_a (tg 42 "ann") ["a"] noon).2.

(** ... then the admin bans user 42 and resets the giveaway. *)
Definition bot_claimed_ban42 : Bot :=
  (ban_user "1" bot_claimed 1 ["42"]).2.

Definition bot_ban42_reset : Bot :=
  (resetgiveaway "1" bot_claimed_ban42 1).2.

(** ... then the admin bans user 43. *)
Definition bot_claimed_ban43 : Bot :=
  (ban_user "1" bot_claimed 1 ["43"]).2.

(** ... or the admin deletes the redeemed code. *)
Definition bot_claimed_deleted : Bot :=
  (delcode "1" ascii_upper bot_claimed 1 ["A"]).2.

(** Three draws: AAAA twice, then AAAB. *)
Definition three_draws : list Draw :=
  [ {| k0 := 0; k1 := 0; k2 := 0; k3 := 0 |};
    {| k0 := 0; k1 := 0; k2 := 0; k3 := 0 |};
    {| k0 := 0; k1 := 0; k2 := 0; k3 := 37 |} ].

Definition midnight (i : nat) : string := "2024-01-03T00:00:00".

(** The record of user 42 in [bot_claimed]. *)
Definition ann_record : User :=
  {| username := "ann"; first_name := "ann"; last_name := "N/A";
     join_date := "2024-01-01T12:00:00";
     redeemed_codes :=
       [ {| rd_code := "A"; rd_prize := "No prize set";
            rd_date := "2024-01-01 12:00:00" |} ] |}.

(** User 42 comes back under another name and tries a code that is not
    there. *)
Definition bot_ann_renamed : Bot :=
  (redeem ascii_upper bot_claimed
     {| id := 42; tg_username := Some "queen"; tg_first_name := Some "Anne";
        tg_last_name := Some "Boleyn" |} ["nope"] later).2.

(** The report of [stats] for [bot_claimed]. *)
Definition report_claimed : Stats :=
  {| total_codes := 1; redeemed_count := 1; available := 0;
     total_users := 1; banned_count := 0; active_users := 1;
     success_rate := 100 |}.

(** Code ABC123 with prize [iPhone 15], never redeemed. *)
Definition bot_iphone : Bot :=
  (addprize "1" ascii_upper (addcode "1" ascii_upper fresh_bot 1 ["ABC123"] "2024-01-01T00:00:00").2
     1 ["ABC123"; "iPhone"; "15"]).2.


(** ** Text *)

Lemma upper_ascii_idemp c : upper_ascii (upper_ascii c) = upper_ascii c.
Proof.
  destruct c as [[] [] [] [] [] [] [] []]; reflexivity.
Qed.

Lemma ascii_upper_idemp s : ascii_upper (ascii_upper s) = ascii_upper s.
Proof.
  induction s as [|c s IH]; simpl; [reflexivity|].
  by rewrite upper_ascii_idemp, IH.
Qed.

Lemma ascii_upper_app s t :
  ascii_upper (s ++ t) = ascii_upper s ++ ascii_upper t.
Proof.
  induction s as [|c s IH]; simpl; [reflexivity|]. by rewrite IH.
Qed.

Lemma pick_upper i : upper_ascii (pick i) = pick i.
Proof.
  unfold pick.
  assert (Hlt : i mod 36 < 36) by (apply Nat.mod_upper_bound; lia).
  revert Hlt. generalize (i mod 36). intros n Hn.
  do 36 (destruct n as [|n]; [reflexivity|]). lia.
Qed.

Lemma ascii_upper_suffix_of d : ascii_upper (suffix_of d) = suffix_of d.
Proof.
  unfold suffix_of. simpl. by rewrite !pick_upper.
Qed.

Lemma app_string_inj (p s t : string) : p ++ s = p ++ t → s = t.
Proof.
  induction p as [|c p IH]; simpl; [done|].
  intros H. apply IH. by injection H.
Qed.

(** ** Registration *)

Section Properties.

Variable ADMIN_ID : string.
Variable py_int : string → option Z.
Variable upper : string → string.

Local Arguments register_user : simpl never.

Lemma register_user_codes b user now :
  codes (register_user b user now) = codes b.
Proof. unfold register_user. by destruct (users b !! str (id user)). Qed.

Lemma register_user_banned b user now :
  banned_users (register_user b user now) = banned_users b.
Proof. unfold register_user. by destruct (users b !! str (id user)). Qed.

Lemma register_user_known b user now :
  is_Some (users (register_user b user now) !! str (id user)).
Proof.
  unfold register_user.
  destruct (users b !! str (id user)) eqn:E; simpl; [by rewrite E|].
  rewrite lookup_insert_eq. eauto.
Qed.

Lemma register_user_keeps b user now uid u :
  users b !! uid = Some u → users (register_user b user now) !! uid = Some u.
Proof.
  intros H. unfold register_user.
  destruct (users b !! str (id user)) eqn:E; simpl; [done|].
  rewrite lookup_insert_ne; [done|]. congruence.
Qed.

Lemma register_user_adds b user now uid u :
  users b !! uid = None → users (register_user b user now) !! uid = Some u →
  uid = str (id user) ∧ u = new_user user now.
Proof.
  unfold register_user.
  destruct (users b !! str (id user)) eqn:E; simpl; [congruence|].
  intros Hn. rewrite lookup_insert. case_decide; [|congruence].
  intros [= <-]. done.
Qed.

Lemma register_user_history b user now uid :
  history_len (register_user b user now) uid = history_len b uid.
Proof.
  unfold history_len, register_user.
  destruct (users b !! str (id user)) eqn:E; simpl; [done|].
  rewrite lookup_insert. case_decide; [|done]. subst. by rewrite E.
Qed.

Lemma register_user_claimed b user now uid :
  claimed_by (register_user b user now) uid = claimed_by b uid.
Proof. unfold claimed_by. by rewrite register_user_codes. Qed.

(** C8.  [register_user] is idempotent: a second call for the same id,
    whatever the names and the clock it is given, leaves the bot, hence the
    stored user record, exactly as after the first call; [users] is saved
    by the first call when it inserts, and by no other call. *)
Theorem register_user_idempotent b user now un fn ln now' :
  let b1 := register_user b user now in
  let again := {| id := id user; tg_username := un; tg_first_name := fn;
                  tg_last_name := ln |} in
  register_user b1 again now' = b1 ∧
  users (register_user b1 again now') !! str (id user) = users b1 !! str (id user) ∧
  saved (register_user b1 again now') = saved b1 ∧
  saved b1 =
    match users b !! str (id user) with
    | None => (saved b ++ [SaveUsers (users b1)])%list
    | Some _ => saved b
    end.
Proof.
  intros b1 again.
  assert (Hsame : register_user b1 again now' = b1).
  { destruct (register_user_known b user now) as [u Hu].
    fold b1 in Hu. unfold register_user. simpl. by rewrite Hu. }
  rewrite Hsame. repeat split.
  subst b1. unfold register_user.
  by destruct (users b !! str (id user)).
Qed.

(** ** Failing redemptions *)

Lemma redeem_banned b user args clock :
  is_banned b (id user) = true → redeem upper b user args clock = (RBanned, b).
Proof. intros H. unfold redeem. by rewrite H. Qed.

(** A redemption that does not succeed goes no further than registration. *)
Lemma redeem_failure_registers b user args clock reply b' :
  redeem upper b user args clock = (reply, b') →
  reply = RInvalidCode ∨ (∃ r, reply = RAlreadyRedeemed r) →
  b' = register_user b user (at_join clock).
Proof.
  unfold redeem. destruct (is_banned b (id user)).
  { intros [= <- <-] [?|[? ?]]; done. }
  destruct args as [|raw rest].
  { intros [= <- <-] [?|[? ?]]; done. }
  set (b1 := register_user b user (at_join clock)).
  destruct (codes b1 !! upper raw) as [c|]; [|by intros [= <- <-]].
  destruct (redeemed c).
  { destruct (redeemer c); by intros [= <- <-]. }
  simpl. destruct (users b1 !! str (id user)).
  - intros [= <- <-] [?|[? ?]]; done.
  - intros [= <- <-] [?|[? ?]]; done.
Qed.

(** C9.  A redemption refused with [RBanned] leaves the bot as it was: no
    document changes and nothing is saved.  One refused with
    [RInvalidCode] or [RAlreadyRedeemed] leaves the codes and the banned
    list as they were and every stored user as it was; the only change can
    be the registration of the caller, with no redemption on record. *)
Theorem redeem_failure_frame b user args clock reply b' :
  redeem upper b user args clock = (reply, b') →
  (reply = RBanned → b' = b) ∧
  (reply = RInvalidCode ∨ (∃ r, reply = RAlreadyRedeemed r) →
     b' = register_user b user (at_join clock) ∧
     codes b' = codes b ∧
     banned_users b' = banned_users b ∧
     (∀ uid u, users b !! uid = Some u → users b' !! uid = Some u) ∧
     (∀ uid u, users b !! uid = None → users b' !! uid = Some u →
        uid = str (id user) ∧ redeemed_codes u = [])).
Proof.
  intros Hrun. split.
  - intros ->. revert Hrun. unfold redeem.
    destruct (is_banned b (id user)); [by intros [= <-]|].
    destruct args as [|raw rest]; [done|].
    set (b1 := register_user b user (at_join clock)).
    destruct (codes b1 !! upper raw) as [c|]; [|done].
    destruct (redeemed c); [by destruct (redeemer c)|].
    simpl. by destruct (users b1 !! str (id user)).
  - intros Hfail.
    rewrite (redeem_failure_registers _ _ _ _ _ _ Hrun Hfail).
    split; [done|]. split; [apply register_user_codes|].
    split; [apply register_user_banned|]. split.
    + intros uid u. apply register_user_keeps.
    + intros uid u Hn Hs.
      destruct (register_user_adds _ _ _ _ _ Hn Hs) as [-> ->]. done.
Qed.

(** ** Banning *)

Lemma is_admin_spec uid : is_admin ADMIN_ID uid = true ↔ str uid = ADMIN_ID.
Proof. unfold is_admin. apply bool_decide_eq_true. Qed.

Lemma ban_user_self b caller rest :
  is_admin ADMIN_ID caller = true →
  ban_user ADMIN_ID b caller (ADMIN_ID :: rest) = (BSelf, b).
Proof.
  intros H. unfold ban_user. rewrite H. simpl.
  by rewrite decide_True.
Qed.

Lemma ban_user_keeps_admin_out b caller args :
  ADMIN_ID ∉ banned_users b →
  ADMIN_ID ∉ banned_users (ban_user ADMIN_ID b caller args).2.
Proof.
  intros H. unfold ban_user.
  destruct (is_admin ADMIN_ID caller); simpl; [|done].
  destruct args as [|a rest]; simpl; [done|].
  destruct (decide (a = ADMIN_ID)); [done|].
  destruct (decide (a ∈ banned_users b)); simpl; [done|].
  rewrite elem_of_app, list_elem_of_singleton. intros [?|?]; congruence.
Qed.

Lemma remove_first_subset x y l : y ∈ remove_first x l → y ∈ l.
Proof.
  induction l as [|z l IH]; simpl; [done|].
  destruct (decide (x = z)).
  - intros. by apply elem_of_cons; right.
  - rewrite !elem_of_cons. intros [?|?]; [by left|right; auto].
Qed.

Lemma gen_loop_banned n : ∀ b prefix draws now acc keys b',
  gen_loop n b prefix draws now acc = Some (keys, b') →
  banned_users b' = banned_users b.
Proof.
  induction n as [|n IH]; simpl; intros b prefix draws now acc keys b'.
  - by intros [= _ <-].
  - destruct (draw_code (codes b) prefix draws) as [[code rest]|]; [|done].
    intros H. by rewrite (IH _ _ _ _ _ _ _ H).
Qed.

Lemma redeem_banned_list b user args clock :
  banned_users (redeem upper b user args clock).2 = banned_users b.
Proof.
  unfold redeem. destruct (is_banned b (id user)); [done|].
  destruct args as [|raw rest]; simpl; [apply register_user_banned|].
  set (b1 := register_user b user (at_join clock)).
  destruct (codes b1 !! upper raw) as [x|]; simpl;
    [|apply register_user_banned].
  destruct (redeemed x).
  { destruct (redeemer x); apply register_user_banned. }
  simpl. destruct (users b1 !! str (id user)); simpl;
    apply register_user_banned.
Qed.

Lemma exec_banned b c b' :
  exec ADMIN_ID py_int upper b c = Some b' →
  banned_users b' = banned_users b ∨
  (∃ caller args, banned_users b' = banned_users (ban_user ADMIN_ID b caller args).2) ∨
  (∃ x, banned_users b' = remove_first x (banned_users b)).
Proof.
  destruct c; simpl.
  - intros [= <-]. left. unfold start.
    destruct (is_banned b (id user)); simpl; [done|apply register_user_banned].
  - intros [= <-]. left. apply redeem_banned_list.
  - intros [= <-]. left. unfold addcode.
    destruct (is_admin ADMIN_ID caller); simpl; [|done].
    destruct args as [|raw rest]; simpl; [done|].
    by destruct (codes b !! upper raw).
  - intros [= <-]. left. unfold addprize.
    destruct (is_admin ADMIN_ID caller); simpl; [|done].
    destruct args as [|raw [|a rest]]; simpl; [done..|].
    by destruct (codes b !! upper raw).
  - intros [= <-]. left. unfold delcode.
    destruct (is_admin ADMIN_ID caller); simpl; [|done].
    destruct args as [|raw rest]; simpl; [done|].
    by destruct (codes b !! upper raw).
  - unfold gencode. left. revert H.
    destruct (is_admin ADMIN_ID caller); simpl; [|by intros [= <-]].
    destruct args as [|a0 [|a1 rest]]; simpl; [by intros [= <-]..|].
    destruct (py_int a0) as [num|]; simpl; [|by intros [= <-]].
    destruct (50 <? num)%Z; simpl; [by intros [= <-]|].
    destruct (gen_loop _ _ _ _ _ _) as [[keys b1]|] eqn:E; simpl; [|done].
    intros [= <-]. simpl. by apply gen_loop_banned in E.
  - intros [= <-]. right; left. eauto.
  - intros [= <-]. unfold unban_user.
    destruct (is_admin ADMIN_ID caller); simpl; [|by left].
    destruct args as [|a rest]; simpl; [by left|].
    destruct (decide (a ∈ banned_users b)); simpl; [|by left].
    right; right. eauto.
  - intros [= <-]. left. unfold resetgiveaway.
    by destruct (is_admin ADMIN_ID caller).
Qed.

Lemma exec_keeps_admin_out b c b' :
  ADMIN_ID ∉ banned_users b → exec ADMIN_ID py_int upper b c = Some b' →
  ADMIN_ID ∉ banned_users b'.
Proof.
  intros Hout Hex.
  destruct (exec_banned _ _ _ Hex) as [->|[(caller & args & ->)|[x ->]]].
  - done.
  - by apply ban_user_keeps_admin_out.
  - intros Hin. by apply remove_first_subset in Hin.
Qed.

(** C7.  [ban_user] given the admin's own id answers that one cannot ban
    oneself and leaves the bot as it was; whoever calls it and whatever the
    argument, it never puts [ADMIN_ID] in the banned list; so from a bot
    whose list is free of it (the fresh bot is one) every reachable state
    has [ADMIN_ID] outside the list, and the admin is never banned. *)
Theorem admin_never_banned :
  (∀ b caller rest, is_admin ADMIN_ID caller = true →
     ban_user ADMIN_ID b caller (ADMIN_ID :: rest) = (BSelf, b)) ∧
  (∀ b caller args, ADMIN_ID ∉ banned_users b →
     ADMIN_ID ∉ banned_users (ban_user ADMIN_ID b caller args).2) ∧
  (∀ b0 b, ADMIN_ID ∉ banned_users b0 → reaches ADMIN_ID py_int upper b0 b →
     (ADMIN_ID ∉ banned_users b) ∧
     (∀ uid, is_admin ADMIN_ID uid = true → is_banned b uid = false)) ∧
  (∀ b, reaches ADMIN_ID py_int upper fresh_bot b → ADMIN_ID ∉ banned_users b).
Proof.
  assert (Hreach : ∀ b0 b, ADMIN_ID ∉ banned_users b0 →
            reaches ADMIN_ID py_int upper b0 b → ADMIN_ID ∉ banned_users b).
  { intros b0 b H0 Hr. induction Hr as [|b c b' _ IH Hex]; [done|].
    by eapply exec_keeps_admin_out. }
  split; [apply ban_user_self|]. split; [apply ban_user_keeps_admin_out|].
  split.
  - intros b0 b H0 Hr. split; [by eapply Hreach|].
    intros uid Hadm. apply is_admin_spec in Hadm.
    unfold is_banned. apply bool_decide_eq_false. rewrite Hadm.
    by eapply Hreach.
  - intros b Hr. eapply Hreach; [|done]. simpl. apply not_elem_of_nil.
Qed.

(** C10.  In [ban_user] the conversion of the argument never raises, so the
    reply for an invalid user id is never given; for an admin caller any
    argument other than [ADMIN_ID], number or not, is in the banned list
    afterwards, appended as it was typed when it was not there yet. *)
Theorem ban_user_never_invalid b caller args :
  (ban_user ADMIN_ID b caller args).1 ≠ BInvalidId ∧
  (∀ e, (ban_user ADMIN_ID b caller args).1 ≠ BRaised e) ∧
  (∀ a rest, args = a :: rest → is_admin ADMIN_ID caller = true →
     a ≠ ADMIN_ID →
     a ∈ banned_users (ban_user ADMIN_ID b caller args).2 ∧
     (a ∉ banned_users b →
        ban_user ADMIN_ID b caller args =
          (BBanned a, save_banned (set_banned b (banned_users b ++ [a]))))).
Proof.
  unfold ban_user. split; [|split].
  - destruct (is_admin ADMIN_ID caller); simpl; [|done].
    destruct args as [|a rest]; simpl; [done|].
    destruct (decide (a = ADMIN_ID)); [done|].
    by destruct (decide (a ∈ banned_users b)).
  - intros e. destruct (is_admin ADMIN_ID caller); simpl; [|done].
    destruct args as [|a rest]; simpl; [done|].
    destruct (decide (a = ADMIN_ID)); [done|].
    by destruct (decide (a ∈ banned_users b)).
  - intros a rest -> -> Hne. simpl.
    rewrite decide_False by done.
    destruct (decide (a ∈ banned_users b)); simpl.
    + done.
    + split; [|done]. rewrite elem_of_app, list_elem_of_singleton. by right.
Qed.

(** ** Statistics *)

(** C3.  With no code stored, [stats] for the admin divides by zero. *)
Theorem stats_no_codes_raises b caller :
  is_admin ADMIN_ID caller = true → codes b = ∅ →
  stats ADMIN_ID b caller = StRaised ZeroDivisionError.
Proof.
  intros Hadm Hempty. unfold stats. rewrite Hadm, Hempty. simpl.
  by rewrite map_size_empty.
Qed.

Lemma stats_some_codes_reports b caller :
  is_admin ADMIN_ID caller = true → codes b ≠ ∅ →
  ∃ r, stats ADMIN_ID b caller = StReport r ∧
       total_codes r = size (codes b) ∧
       redeemed_count r = size (filter (λ kv, redeemed kv.2 = true) (codes b)) ∧
       success_rate r =
         (inject_Z (Z.of_nat (redeemed_count r)) /
          inject_Z (Z.of_nat (total_codes r)) * 100)%Q.
Proof.
  intros Hadm Hne. unfold stats, truediv. rewrite Hadm. cbv [negb].
  destruct (size (codes b)) eqn:E.
  - apply map_size_empty_iff in E. done.
  - eexists. split; [reflexivity|]. done.
Qed.

(** ** Redemption *)

Lemma redeem_claimed b user raw rest clock c r :
  is_banned b (id user) = false →
  codes b !! upper raw = Some c → redeemed c = true → redeemer c = Some r →
  redeem upper b user (raw :: rest) clock =
    (RAlreadyRedeemed r, register_user b user (at_join clock)).
Proof.
  intros Hb Hc Hflag Hr. unfold redeem. rewrite Hb. cbv zeta.
  rewrite register_user_codes, Hc, Hflag, Hr. done.
Qed.

Lemma redeem_success b user raw rest clock c :
  is_banned b (id user) = false →
  codes b !! upper raw = Some c → redeemed c = false →
  ∃ b', redeem upper b user (raw :: rest) clock = (RSuccess (upper raw) (prize c), b') ∧
        codes b' = <[upper raw := claim c (snapshot user (at_snapshot clock))]> (codes b) ∧
        banned_users b' = banned_users b.
Proof.
  intros Hb Hc Hflag. unfold redeem. rewrite Hb. cbv zeta.
  rewrite register_user_codes, Hc, Hflag. simpl.
  destruct (register_user_known b user (at_join clock)) as [u Hu].
  rewrite Hu. eexists. split; [reflexivity|]. simpl.
  by rewrite ?register_user_codes, ?register_user_banned.
Qed.

Lemma redeem_success_inv b user args clock code won b' :
  redeem upper b user args clock = (RSuccess code won, b') →
  ∃ raw rest c, args = raw :: rest ∧ code = upper raw ∧
    is_banned b (id user) = false ∧
    codes b !! code = Some c ∧ redeemed c = false ∧ won = prize c ∧
    codes b' = <[code := claim c (snapshot user (at_snapshot clock))]> (codes b) ∧
    banned_users b' = banned_users b.
Proof.
  unfold redeem. destruct (is_banned b (id user)) eqn:Hb; [done|].
  destruct args as [|raw rest]; [done|]. cbv zeta.
  rewrite register_user_codes.
  destruct (codes b !! upper raw) as [c|] eqn:Hc; [|done].
  destruct (redeemed c) eqn:Hflag; [by destruct (redeemer c)|].
  simpl. destruct (register_user_known b user (at_join clock)) as [u Hu].
  rewrite Hu. intros [= <- <- <-]. exists raw, rest, c. simpl.
  by rewrite ?register_user_codes, ?register_user_banned.
Qed.

(** No [redeem] touches a code whose flag is set. *)
Lemma redeem_keeps_claimed b user args clock k c :
  codes b !! k = Some c → redeemed c = true →
  codes (redeem upper b user args clock).2 !! k = Some c.
Proof.
  intros Hk Hflag. unfold redeem.
  destruct (is_banned b (id user)); [done|].
  destruct args as [|raw rest]; simpl; [by rewrite register_user_codes|].
  cbv zeta. rewrite register_user_codes.
  destruct (codes b !! upper raw) as [x|] eqn:Hx; simpl;
    [|by rewrite register_user_codes].
  destruct (redeemed x) eqn:Hfx.
  { destruct (redeemer x); simpl; by rewrite register_user_codes. }
  simpl. assert (upper raw ≠ k) by (intros E; rewrite E in Hx; congruence).
  destruct (users (register_user b user (at_join clock)) !! str (id user));
    simpl; rewrite lookup_insert_ne by done; by rewrite ?register_user_codes.
Qed.

Lemma redeem_all_keeps_claimed calls : ∀ b k c,
  codes b !! k = Some c → redeemed c = true →
  codes (redeem_all upper b calls) !! k = Some c.
Proof.
  induction calls as [|[[user args] clock] calls IH]; simpl; [done|].
  intros b k c Hk Hflag. apply IH; [|done]. by apply redeem_keeps_claimed.
Qed.

(** C1, as the code has it.  Once [user1] has redeemed a code, the entry
    carries the snapshot taken then; no run of [redeem] calls changes it; a
    later attempt on the same code by a user who is not banned is answered
    with that snapshot, unchanged; an attempt by a banned user is refused
    as banned before the code is looked at, and changes nothing either. *)
Theorem first_claim_stands b user1 raw1 rest1 clock1 code won b1 calls
    user2 raw2 rest2 clock2 :
  redeem upper b user1 (raw1 :: rest1) clock1 = (RSuccess code won, b1) →
  upper raw2 = code →
  let bn := redeem_all upper b1 calls in
  let first := snapshot user1 (at_snapshot clock1) in
  (∃ c, codes bn !! code = Some c ∧ redeemed c = true ∧ redeemer c = Some first) ∧
  codes (redeem upper bn user2 (raw2 :: rest2) clock2).2 !! code = codes bn !! code ∧
  (is_banned bn (id user2) = false →
     (redeem upper bn user2 (raw2 :: rest2) clock2).1 = RAlreadyRedeemed first) ∧
  (is_banned bn (id user2) = true →
     redeem upper bn user2 (raw2 :: rest2) clock2 = (RBanned, bn)).
Proof.
  intros Hfirst Hraw bn first.
  destruct (redeem_success_inv _ _ _ _ _ _ _ Hfirst)
    as (raw & rest & c & _ & _ & _ & Hc & _ & _ & Hcodes & _).
  assert (Hb1 : codes b1 !! code = Some (claim c first)).
  { rewrite Hcodes. apply lookup_insert_eq. }
  assert (Hbn : codes bn !! code = Some (claim c first)).
  { by apply redeem_all_keeps_claimed. }
  split; [by exists (claim c first)|]. split; [|split].
  - rewrite Hbn. by apply redeem_keeps_claimed.
  - intros Hnb. rewrite <- Hraw in Hbn.
    by rewrite (redeem_claimed _ _ _ _ _ _ _ Hnb Hbn eq_refl eq_refl).
  - intros Hban. by apply redeem_banned.
Qed.

(** ** Key normalization *)

Lemma redeem_unknown b user raw rest clock :
  is_banned b (id user) = false → codes b !! upper raw = None →
  redeem upper b user (raw :: rest) clock =
    (RInvalidCode, register_user b user (at_join clock)).
Proof.
  intros Hb Hc. unfold redeem. rewrite Hb. cbv zeta.
  by rewrite register_user_codes, Hc.
Qed.

Lemma addcode_stores b caller raw rest now :
  is_admin ADMIN_ID caller = true →
  (is_Some (codes b !! upper raw) →
     addcode ADMIN_ID upper b caller (raw :: rest) now = (AExists (upper raw), b)) ∧
  (codes b !! upper raw = None →
     addcode ADMIN_ID upper b caller (raw :: rest) now =
       (AAdded (upper raw),
        save_codes (set_codes b (<[upper raw := new_code now]> (codes b))))).
Proof.
  intros Hadm. unfold addcode. rewrite Hadm. simpl. split.
  - by intros [c ->].
  - by intros ->.
Qed.

Lemma addprize_stores b caller raw word words :
  is_admin ADMIN_ID caller = true →
  (codes b !! upper raw = None →
     addprize ADMIN_ID upper b caller (raw :: word :: words) =
       (AUnknown (upper raw), b)) ∧
  (∀ c, codes b !! upper raw = Some c →
     addprize ADMIN_ID upper b caller (raw :: word :: words) =
       (APrizeSet (upper raw) (join_space (word :: words)),
        save_codes (set_codes b
          (<[upper raw := set_prize c (join_space (word :: words))]> (codes b))))).
Proof.
  intros Hadm. unfold addprize. rewrite Hadm. simpl. split.
  - by intros ->.
  - by intros c ->.
Qed.

Lemma delcode_removes b caller raw rest :
  is_admin ADMIN_ID caller = true →
  (codes b !! upper raw = None →
     delcode ADMIN_ID upper b caller (raw :: rest) = (AUnknown (upper raw), b)) ∧
  (is_Some (codes b !! upper raw) →
     delcode ADMIN_ID upper b caller (raw :: rest) =
       (ADeleted (upper raw),
        save_codes (set_codes b (delete (upper raw) (codes b))))).
Proof.
  intros Hadm. unfold delcode. rewrite Hadm. simpl. split.
  - by intros ->.
  - by intros [c ->].
Qed.

(** Two spellings with the same uppercase form are the same argument. *)
Lemma same_upper_same_command b raw1 raw2 rest :
  upper raw1 = upper raw2 →
  (∀ user clock,
     redeem upper b user (raw1 :: rest) clock =
     redeem upper b user (raw2 :: rest) clock) ∧
  (∀ caller now,
     addcode ADMIN_ID upper b caller (raw1 :: rest) now =
     addcode ADMIN_ID upper b caller (raw2 :: rest) now) ∧
  (∀ caller,
     addprize ADMIN_ID upper b caller (raw1 :: rest) =
     addprize ADMIN_ID upper b caller (raw2 :: rest)) ∧
  (∀ caller,
     delcode ADMIN_ID upper b caller (raw1 :: rest) =
     delcode ADMIN_ID upper b caller (raw2 :: rest)).
Proof.
  intros H. unfold redeem, addcode, addprize, delcode.
  rewrite H. done.
Qed.

(** ** Code generation *)

Lemma draw_code_spec d prefix draws code rest :
  draw_code d prefix draws = Some (code, rest) →
  d !! code = None ∧
  (∃ x, x ∈ draws ∧ code = prefix ++ suffix_of x) ∧
  (∀ x, x ∈ rest → x ∈ draws).
Proof.
  induction draws as [|x draws IH]; simpl; [done|].
  destruct (d !! (prefix ++ suffix_of x)) eqn:E.
  - intros H. destruct (IH H) as (Hn & (y & Hy & Hc) & Hsub).
    split; [done|]. split.
    + exists y. split; [by apply elem_of_cons; right|done].
    + intros z Hz. apply elem_of_cons; right. auto.
  - intros [= <- <-]. split; [done|]. split.
    + exists x. split; [by apply elem_of_cons; left|done].
    + intros z Hz. by apply elem_of_cons; right.
Qed.

(** What the [for] loop has done when it returns. *)
Lemma gen_loop_spec n : ∀ b prefix draws now acc keys b',
  gen_loop n b prefix draws now acc = Some (keys, b') →
  ∃ new, keys = (acc ++ new)%list ∧ length new = n ∧ NoDup new ∧
    (∀ k, k ∈ new →
       codes b !! k = None ∧
       (∃ x, x ∈ draws ∧ k = prefix ++ suffix_of x) ∧
       (∃ t, codes b' !! k = Some (new_code t))) ∧
    (∀ k, k ∉ new → codes b' !! k = codes b !! k) ∧
    users b' = users b ∧ banned_users b' = banned_users b ∧
    saved b' = saved b.
Proof.
  induction n as [|n IH]; simpl; intros b prefix draws now acc keys b'.
  - intros [= <- <-]. exists []. rewrite app_nil_r.
    split; [done|]. split; [done|]. split; [apply NoDup_nil_2|].
    split; [|done]. intros k Hk. by apply elem_of_nil in Hk.
  - destruct (draw_code (codes b) prefix draws) as [[code rest]|] eqn:Ed;
      [|done].
    destruct (draw_code_spec _ _ _ _ _ Ed) as (Hfree & (x & Hx & Hcode) & Hsub).
    intros Hloop.
    destruct (IH _ _ _ _ _ _ _ Hloop)
      as (new & Hkeys & Hlen & Hnd & Hnew & Hold & Hu & Hb & Hs).
    simpl in *.
    assert (Hnotin : code ∉ new).
    { intros Hin. destruct (Hnew _ Hin) as (Hn & _).
      by rewrite lookup_insert_eq in Hn. }
    exists (code :: new). split; [by rewrite Hkeys, <- app_assoc|].
    split; [simpl; by rewrite Hlen|]. split; [by constructor|].
    split; [|split; [|done]].
    + intros k Hk. apply elem_of_cons in Hk as [->|Hk].
      * split; [done|]. split; [by exists x|].
        rewrite (Hold _ Hnotin), lookup_insert_eq. eauto.
      * destruct (Hnew _ Hk) as (Hn & (y & Hy & Hky) & Ht).
        assert (k ≠ code) by (intros ->; done).
        rewrite lookup_insert_ne in Hn by done.
        split; [done|]. split; [|done]. exists y. split; [auto|done].
    + intros k Hk. rewrite not_elem_of_cons in Hk. destruct Hk as [Hne Hk].
      rewrite (Hold _ Hk). by rewrite lookup_insert_ne.
Qed.

Lemma elem_of_free_suffixes (d : gmap string Code) prefix draws s :
  s ∈ free_suffixes d prefix draws ↔
  d !! (prefix ++ s) = None ∧ ∃ x, x ∈ draws ∧ s = suffix_of x.
Proof.
  unfold free_suffixes.
  rewrite elem_of_list_to_set, list_elem_of_filter, list_elem_of_fmap.
  split; intros [H (x & H1 & H2)]; split; eauto.
Qed.

Lemma free_suffixes_taken (d : gmap string Code) prefix x draws :
  is_Some (d !! (prefix ++ suffix_of x)) →
  free_suffixes d prefix (x :: draws) = free_suffixes d prefix draws.
Proof.
  intros [c Hc]. apply set_eq. intros s. rewrite !elem_of_free_suffixes.
  split.
  - intros [Hn (y & Hy & ->)]. split; [done|].
    apply elem_of_cons in Hy as [->|Hy]; [congruence|eauto].
  - intros [Hn (y & Hy & ->)]. split; [done|].
    exists y. split; [by apply elem_of_cons; right|done].
Qed.

Lemma free_suffixes_insert (d : gmap string Code) prefix s c draws :
  free_suffixes (<[prefix ++ s := c]> d) prefix draws =
  free_suffixes d prefix draws ∖ {[s]}.
Proof.
  apply set_eq. intros s'.
  rewrite elem_of_difference, !elem_of_free_suffixes, elem_of_singleton.
  rewrite lookup_insert. case_decide as E.
  - apply app_string_inj in E. subst. split; [by intros [? _]|by intros [_ ?]].
  - split.
    + intros [? ?]. split; [done|]. intros ->. done.
    + by intros [? _].
Qed.

(** The [while] loop returns when a free suffix is among the draws. *)
Lemma draw_code_returns (d : gmap string Code) prefix draws n :
  (S n ≤ size (free_suffixes d prefix draws))%nat →
  ∃ code rest, draw_code d prefix draws = Some (code, rest) ∧
    ∀ c, (n ≤ size (free_suffixes (<[code := c]> d) prefix rest))%nat.
Proof.
  induction draws as [|x draws IH].
  - change (free_suffixes d prefix []) with (∅ : gset string).
    rewrite size_empty. lia.
  - simpl. destruct (d !! (prefix ++ suffix_of x)) eqn:E.
    + rewrite free_suffixes_taken by eauto. apply IH.
    + intros Hsize. exists (prefix ++ suffix_of x), draws.
      split; [done|]. intros c. rewrite free_suffixes_insert.
      assert (Hle : free_suffixes d prefix (x :: draws) ⊆
                {[suffix_of x]} ∪ (free_suffixes d prefix draws ∖ {[suffix_of x]})).
      { intros s. rewrite elem_of_union, elem_of_difference, elem_of_singleton,
          !elem_of_free_suffixes.
        intros [Hn (y & Hy & ->)].
        destruct (decide (suffix_of y = suffix_of x)) as [Heq|Hne]; [by left|].
        right. split; [|done]. split; [done|]. exists y. split; [|done].
        apply elem_of_cons in Hy as [->|Hy]; done. }
      apply subseteq_size in Hle.
      rewrite size_union, size_singleton in Hle; [lia|].
      apply disjoint_singleton_l.
      rewrite elem_of_difference, elem_of_singleton. tauto.
Qed.

(** The [for] loop returns when [n] distinct free suffixes are among the
    draws. *)
Lemma gen_loop_returns n : ∀ b prefix draws now acc,
  (n ≤ size (free_suffixes (codes b) prefix draws))%nat →
  is_Some (gen_loop n b prefix draws now acc).
Proof.
  induction n as [|n IH]; simpl; intros b prefix draws now acc Hsize; [eauto|].
  destruct (draw_code_returns _ _ _ _ Hsize) as (code & rest & -> & Hrest).
  apply IH. simpl. apply Hrest.
Qed.

Lemma gencode_inv b caller args draws now reply b' :
  gencode ADMIN_ID py_int upper b caller args draws now = Some (reply, b') →
  (b' = b ∧ ∀ n keys, reply ≠ GGenerated n keys) ∨
  (∃ a0 a1 rest n keys b1,
     args = a0 :: a1 :: rest ∧ is_admin ADMIN_ID caller = true ∧
     py_int a0 = Some n ∧ (n ≤ 50)%Z ∧
     gen_loop (Z.to_nat n) b (upper a1) draws now [] = Some (keys, b1) ∧
     reply = GGenerated n keys ∧ b' = save_codes b1).
Proof.
  unfold gencode.
  destruct (is_admin ADMIN_ID caller) eqn:Hadm; simpl;
    [|intros [= <- <-]; by left].
  destruct args as [|a0 [|a1 rest]]; [intros [= <- <-]; by left..|].
  destruct (py_int a0) as [n|] eqn:Hint; [|intros [= <- <-]; by left].
  destruct (50 <? n)%Z eqn:Hlim; [intros [= <- <-]; by left|].
  apply Z.ltb_ge in Hlim.
  destruct (gen_loop _ _ _ _ _ _) as [[keys b1]|] eqn:E; [|done].
  intros [= <- <-]. right. exists a0, a1, rest, n, keys, b1. done.
Qed.

(** C4, as the code has it.  For an admin caller and a count that [int]
    reads as [n]: above 50 the handler answers that the limit is exceeded
    and the bot is as before; otherwise, when its loops return, the reply
    lists [n] keys (none for a negative [n]), all different, none of them a
    key before, each the uppercased prefix followed by a drawn suffix and
    each stored with the sentinel prize, unredeemed, every other entry
    being as before and the codes saved once; and the loops do return when
    the draws hold [n] different suffixes free under that prefix. *)
Theorem gencode_creates b caller a0 a1 rest n draws now :
  is_admin ADMIN_ID caller = true → py_int a0 = Some n →
  let run := gencode ADMIN_ID py_int upper b caller (a0 :: a1 :: rest) draws now in
  ((50 < n)%Z → run = Some (GLimit, b)) ∧
  ((n ≤ 50)%Z →
     (∀ reply b', run = Some (reply, b') →
        ∃ keys, reply = GGenerated n keys ∧
          length keys = Z.to_nat n ∧ NoDup keys ∧
          (∀ k, k ∈ keys →
             codes b !! k = None ∧
             (∃ x, x ∈ draws ∧ k = upper a1 ++ suffix_of x) ∧
             (∃ t, codes b' !! k = Some (new_code t)) ∧
             (∃ c, codes b' !! k = Some c ∧ prize c = "No prize set")) ∧
          (∀ k, k ∉ keys → codes b' !! k = codes b !! k) ∧
          users b' = users b ∧ banned_users b' = banned_users b ∧
          saved b' = (saved b ++ [SaveCodes (codes b')])%list) ∧
     ((Z.to_nat n ≤ size (free_suffixes (codes b) (upper a1) draws))%nat →
        is_Some run)).
Proof.
  intros Hadm Hint run. subst run. split.
  - intros Hbig. unfold gencode. rewrite Hadm, Hint. simpl.
    apply Z.ltb_lt in Hbig. by rewrite Hbig.
  - intros Hsmall. split.
    + intros reply b' Hrun.
      destruct (gencode_inv _ _ _ _ _ _ _ Hrun)
        as [[_ Hno]|(a0' & a1' & rest' & n' & keys & b1 & Hargs & _ & Hint'
                     & _ & Hloop & -> & ->)].
      * exfalso. revert Hrun. unfold gencode. rewrite Hadm, Hint. simpl.
        apply Z.ltb_ge in Hsmall. rewrite Hsmall.
        destruct (gen_loop _ _ _ _ _ _) as [[keys b1]|]; [|done].
        intros [= <- _]. by eapply Hno.
      * injection Hargs as <- <- <-.
        rewrite Hint in Hint'. injection Hint' as <-.
        destruct (gen_loop_spec _ _ _ _ _ _ _ _ Hloop)
          as (new & Hkeys & Hlen & Hnd & Hnew & Hold & Hu & Hb & Hs).
        simpl in Hkeys. subst new. exists keys.
        split; [done|]. split; [done|]. split; [done|]. split; [|by rewrite <- Hs].
        intros k Hk. destruct (Hnew _ Hk) as (H1 & H2 & [t Ht]).
        split; [done|]. split; [done|]. split; [by exists t|].
        by exists (new_code t).
    + intros Hfree. unfold gencode. rewrite Hadm, Hint. simpl.
      apply Z.ltb_ge in Hsmall. rewrite Hsmall.
      destruct (gen_loop_returns (Z.to_nat n) b (upper a1) draws now [] Hfree)
        as [[keys b1] ->].
      eauto.
Qed.

(** A key that a command adds is the uppercase form of its argument, or,
    from [gencode], the uppercase form of the prefix followed by a drawn
    suffix. *)
Lemma exec_codes_keys b c b' k :
  exec ADMIN_ID py_int upper b c = Some b' → is_Some (codes b' !! k) →
  is_Some (codes b !! k) ∨ (∃ raw, k = upper raw) ∨
  (∃ prefix x, k = upper prefix ++ suffix_of x).
Proof.
  destruct c; simpl.
  - intros [= <-]. unfold start.
    destruct (is_banned b (id user)); simpl; rewrite ?register_user_codes; auto.
  - intros [= <-]. unfold redeem.
    destruct (is_banned b (id user)); [auto|].
    destruct args as [|raw rest]; simpl; [rewrite register_user_codes; auto|].
    cbv zeta. rewrite register_user_codes.
    destruct (codes b !! upper raw) as [x|] eqn:Hx; simpl;
      [|rewrite register_user_codes; auto].
    destruct (redeemed x).
    { destruct (redeemer x); simpl; rewrite register_user_codes; auto. }
    simpl.
    destruct (users (register_user b user (at_join clock)) !! str (id user));
      simpl; rewrite lookup_insert; (case_decide; [subst; eauto|auto]).
  - intros [= <-]. unfold addcode.
    destruct (is_admin ADMIN_ID caller); simpl; [|auto].
    destruct args as [|raw rest]; simpl; [auto|].
    destruct (codes b !! upper raw); simpl; [auto|].
    rewrite lookup_insert. case_decide; [subst; right; left; eauto|auto].
  - intros [= <-]. unfold addprize.
    destruct (is_admin ADMIN_ID caller); simpl; [|auto].
    destruct args as [|raw [|a rest]]; simpl; [auto..|].
    destruct (codes b !! upper raw) eqn:Hx; simpl; [|auto].
    rewrite lookup_insert. case_decide; [subst; eauto|auto].
  - intros [= <-]. unfold delcode.
    destruct (is_admin ADMIN_ID caller); simpl; [|auto].
    destruct args as [|raw rest]; simpl; [auto|].
    destruct (codes b !! upper raw); simpl; [|auto].
    rewrite lookup_delete. case_decide; [by intros [? ?]|auto].
  - destruct (gencode _ _ _ _ _ _ _ _) as [[reply b1]|] eqn:Hrun; [|done].
    simpl. intros [= <-].
    destruct (gencode_inv _ _ _ _ _ _ _ Hrun)
      as [[-> _]|(a0 & a1 & rest & n & keys & b2 & _ & _ & _ & _ & Hloop & _ & ->)];
      [auto|].
    destruct (gen_loop_spec _ _ _ _ _ _ _ _ Hloop)
      as (new & Hkeys & _ & _ & Hnew & Hold & _).
    simpl. destruct (decide (k ∈ new)) as [Hin|Hout].
    + destruct (Hnew _ Hin) as (_ & (x & _ & ->) & _). intros _.
      right; right. eauto.
    + rewrite (Hold _ Hout). auto.
  - intros [= <-]. unfold ban_user.
    destruct (is_admin ADMIN_ID caller); simpl; [|auto].
    destruct args as [|a rest]; simpl; [auto|].
    destruct (decide (a = ADMIN_ID)); [auto|].
    destruct (decide (a ∈ banned_users b)); simpl; auto.
  - intros [= <-]. unfold unban_user.
    destruct (is_admin ADMIN_ID caller); simpl; [|auto].
    destruct args as [|a rest]; simpl; [auto|].
    destruct (decide (a ∈ banned_users b)); simpl; auto.
  - intros [= <-]. unfold resetgiveaway.
    destruct (is_admin ADMIN_ID caller); simpl; [|auto].
    rewrite lookup_fmap, fmap_is_Some. auto.
Qed.

(** When uppercasing twice is uppercasing once, and leaves a drawn suffix
    after an uppercase prefix alone, every key stays uppercase. *)
Lemma reaches_keys_normalized b0 b :
  (∀ s, upper (upper s) = upper s) →
  (∀ prefix x, upper (upper prefix ++ suffix_of x) = upper prefix ++ suffix_of x) →
  keys_normalized upper b0 → reaches ADMIN_ID py_int upper b0 b →
  keys_normalized upper b.
Proof.
  intros Hidem Hsuffix H0 Hr. induction Hr as [|b c b' _ IH Hex]; [done|].
  intros k Hk.
  destruct (exec_codes_keys _ _ _ _ Hex Hk) as [Hold|[[raw ->]|(p & x & ->)]];
    [by apply IH|apply Hidem|apply Hsuffix].
Qed.

(** Redeeming a free code, then trying it again. *)
Lemma redeem_twice b k c user1 raw1 rest1 clock1 user2 raw2 rest2 clock2 :
  codes b !! k = Some c → redeemed c = false →
  upper raw1 = k → upper raw2 = k →
  is_banned b (id user1) = false → is_banned b (id user2) = false →
  ∃ b1, redeem upper b user1 (raw1 :: rest1) clock1 = (RSuccess k (prize c), b1) ∧
    (redeem upper b1 user2 (raw2 :: rest2) clock2).1 =
      RAlreadyRedeemed (snapshot user1 (at_snapshot clock1)).
Proof.
  intros Hc Hflag H1 H2 Hb1 Hb2. subst k.
  destruct (redeem_success b user1 raw1 rest1 clock1 c Hb1 Hc Hflag)
    as (b1 & Hrun & Hcodes & Hbanned).
  exists b1. split; [done|].
  assert (Hb2' : is_banned b1 (id user2) = false).
  { unfold is_banned in *. by rewrite Hbanned. }
  assert (Hk : codes b1 !! upper raw2 =
               Some (claim c (snapshot user1 (at_snapshot clock1)))).
  { rewrite Hcodes, H2. apply lookup_insert_eq. }
  by rewrite (redeem_claimed _ _ _ _ _ _ _ Hb2' Hk eq_refl eq_refl).
Qed.

(** A code created under one spelling is the code every handler finds
    under any spelling with the same uppercase form. *)
Lemma created_code_found b caller raw rest now raw' :
  is_admin ADMIN_ID caller = true → codes b !! upper raw = None →
  upper raw' = upper raw →
  let b1 := (addcode ADMIN_ID upper b caller (raw :: rest) now).2 in
  codes b1 !! upper raw' = Some (new_code now) ∧
  (∀ user rest' clock, is_banned b (id user) = false →
     (redeem upper b1 user (raw' :: rest') clock).1 =
       RSuccess (upper raw) "No prize set") ∧
  (∀ word words,
     (addprize ADMIN_ID upper b1 caller (raw' :: word :: words)).1 =
       APrizeSet (upper raw) (join_space (word :: words))) ∧
  (∀ rest',
     (delcode ADMIN_ID upper b1 caller (raw' :: rest')).1 = ADeleted (upper raw) ∧
     codes (delcode ADMIN_ID upper b1 caller (raw' :: rest')).2 = codes b).
Proof.
  intros Hadm Hnone Hsame b1. subst b1.
  rewrite (proj2 (addcode_stores b caller raw rest now Hadm) Hnone). simpl.
  set (b1 := save_codes (set_codes b (<[upper raw := new_code now]> (codes b)))).
  assert (Hk : codes b1 !! upper raw' = Some (new_code now))
    by (rewrite Hsame; apply lookup_insert_eq).
  split; [done|]. split; [|split].
  - intros user rest' clock Hb.
    destruct (redeem_success b1 user raw' rest' clock (new_code now))
      as (b2 & -> & _); [done..|]. simpl. by rewrite Hsame.
  - intros word words.
    rewrite (proj2 (addprize_stores b1 caller raw' word words Hadm) _ Hk).
    simpl. by rewrite Hsame.
  - intros rest'.
    rewrite (proj2 (delcode_removes b1 caller raw' rest' Hadm));
      [|by rewrite Hk]. simpl. rewrite Hsame.
    split; [done|]. by apply delete_insert_id.
Qed.

(** C5.  Every handler that takes a code uppercases the argument and uses
    the result for its lookup and its write.  For a user who is not banned,
    [redeem] answers invalid code when the uppercase form is not a key, and
    otherwise reads and claims the entry under it.  For the admin,
    [addcode] refuses when the uppercase form is a key and otherwise
    inserts under it; [addprize] rewrites the entry under it or says the
    code is unknown; [delcode] deletes the entry under it or says the code
    is unknown.  So two spellings with the same uppercase form are the same
    argument to all four, and a code created under one spelling is
    redeemed, priced and deleted under any other.  A key that a command
    adds is such an uppercase form, or, from [gencode], the uppercase form
    of the prefix followed by a drawn suffix; when uppercasing twice is
    uppercasing once and leaves such a suffix alone (as [str.upper] does),
    every key of a bot reached from the fresh one is its own uppercase
    form.  When abc123 uppercases to ABC123, and ABC123 to itself: with
    ABC123 stored, unredeemed, with prize [iPhone 15], a user who is not
    banned redeems abc123 and is told that prize; a later attempt on ABC123
    by another such user is answered with the first user as redeemer. *)
Theorem code_keys_uppercased :
  (∀ b user raw rest clock, is_banned b (id user) = false →
     (codes b !! upper raw = None →
        redeem upper b user (raw :: rest) clock =
          (RInvalidCode, register_user b user (at_join clock))) ∧
     (∀ c, codes b !! upper raw = Some c → redeemed c = false →
        ∃ b', redeem upper b user (raw :: rest) clock =
                (RSuccess (upper raw) (prize c), b') ∧
              codes b' =
                <[upper raw := claim c (snapshot user (at_snapshot clock))]>
                  (codes b)) ∧
     (∀ c r, codes b !! upper raw = Some c → redeemed c = true →
        redeemer c = Some r →
        redeem upper b user (raw :: rest) clock =
          (RAlreadyRedeemed r, register_user b user (at_join clock)))) ∧
  (∀ b caller raw rest now, is_admin ADMIN_ID caller = true →
     (is_Some (codes b !! upper raw) →
        addcode ADMIN_ID upper b caller (raw :: rest) now =
          (AExists (upper raw), b)) ∧
     (codes b !! upper raw = None →
        addcode ADMIN_ID upper b caller (raw :: rest) now =
          (AAdded (upper raw),
           save_codes (set_codes b (<[upper raw := new_code now]> (codes b)))))) ∧
  (∀ b caller raw word words, is_admin ADMIN_ID caller = true →
     (codes b !! upper raw = None →
        addprize ADMIN_ID upper b caller (raw :: word :: words) =
          (AUnknown (upper raw), b)) ∧
     (∀ c, codes b !! upper raw = Some c →
        addprize ADMIN_ID upper b caller (raw :: word :: words) =
          (APrizeSet (upper raw) (join_space (word :: words)),
           save_codes (set_codes b
             (<[upper raw := set_prize c (join_space (word :: words))]>
                (codes b)))))) ∧
  (∀ b caller raw rest, is_admin ADMIN_ID caller = true →
     (codes b !! upper raw = None →
        delcode ADMIN_ID upper b caller (raw :: rest) =
          (AUnknown (upper raw), b)) ∧
     (is_Some (codes b !! upper raw) →
        delcode ADMIN_ID upper b caller (raw :: rest) =
          (ADeleted (upper raw),
           save_codes (set_codes b (delete (upper raw) (codes b)))))) ∧
  (∀ b raw1 raw2 rest, upper raw1 = upper raw2 →
     (∀ user clock,
        redeem upper b user (raw1 :: rest) clock =
        redeem upper b user (raw2 :: rest) clock) ∧
     (∀ caller now,
        addcode ADMIN_ID upper b caller (raw1 :: rest) now =
        addcode ADMIN_ID upper b caller (raw2 :: rest) now) ∧
     (∀ caller,
        addprize ADMIN_ID upper b caller (raw1 :: rest) =
        addprize ADMIN_ID upper b caller (raw2 :: rest)) ∧
     (∀ caller,
        delcode ADMIN_ID upper b caller (raw1 :: rest) =
        delcode ADMIN_ID upper b caller (raw2 :: rest))) ∧
  (∀ b caller raw rest now raw',
     is_admin ADMIN_ID caller = true → codes b !! upper raw = None →
     upper raw' = upper raw →
     let b1 := (addcode ADMIN_ID upper b caller (raw :: rest) now).2 in
     codes b1 !! upper raw' = Some (new_code now) ∧
     (∀ user rest' clock, is_banned b (id user) = false →
        (redeem upper b1 user (raw' :: rest') clock).1 =
          RSuccess (upper raw) "No prize set") ∧
     (∀ word words,
        (addprize ADMIN_ID upper b1 caller (raw' :: word :: words)).1 =
          APrizeSet (upper raw) (join_space (word :: words))) ∧
     (∀ rest',
        (delcode ADMIN_ID upper b1 caller (raw' :: rest')).1 =
          ADeleted (upper raw) ∧
        codes (delcode ADMIN_ID upper b1 caller (raw' :: rest')).2 = codes b)) ∧
  (∀ b c b' k, exec ADMIN_ID py_int upper b c = Some b' →
     is_Some (codes b' !! k) →
     is_Some (codes b !! k) ∨ (∃ raw, k = upper raw) ∨
     (∃ prefix x, k = upper prefix ++ suffix_of x)) ∧
  ((∀ s, upper (upper s) = upper s) →
   (∀ prefix x, upper (upper prefix ++ suffix_of x) = upper prefix ++ suffix_of x) →
   ∀ b, reaches ADMIN_ID py_int upper fresh_bot b → keys_normalized upper b) ∧
  (upper "abc123" = "ABC123" → upper "ABC123" = "ABC123" →
   ∀ b c user1 user2 clock1 clock2,
     codes b !! "ABC123" = Some c → prize c = "iPhone 15" →
     redeemed c = false →
     is_banned b (id user1) = false → is_banned b (id user2) = false →
     ∃ b1 r,
       redeem upper b user1 ["abc123"] clock1 =
         (RSuccess "ABC123" "iPhone 15", b1) ∧
       (redeem upper b1 user2 ["ABC123"] clock2).1 = RAlreadyRedeemed r ∧
       r_user_id r = str (id user1)).
Proof.
  split; [|split; [apply addcode_stores|]].
  { intros b user raw rest clock Hb. split; [by apply redeem_unknown|]. split.
    - intros c Hc Hf.
      destruct (redeem_success b user raw rest clock c Hb Hc Hf)
        as (b' & H1 & H2 & _). by exists b'.
    - intros c r Hc Hf Hr. by apply (redeem_claimed _ _ _ _ _ c). }
  split; [apply addprize_stores|]. split; [apply delcode_removes|].
  split; [apply same_upper_same_command|].
  split; [apply created_code_found|]. split; [apply exec_codes_keys|]. split.
  - intros Hidem Hsuffix b Hr.
    eapply reaches_keys_normalized; [done|done| |done].
    intros k [c Hc]. simpl in Hc. by rewrite lookup_empty in Hc.
  - intros Hlow Hup b c user1 user2 clock1 clock2 Hc Hprize Hflag Hb1 Hb2.
    destruct (redeem_twice b "ABC123" c user1 "abc123" [] clock1
                user2 "ABC123" [] clock2 Hc Hflag Hlow Hup Hb1 Hb2)
      as (b1 & Hrun & Hagain).
    exists b1, (snapshot user1 (at_snapshot clock1)).
    rewrite Hprize in Hrun. done.
Qed.

(** ** Reset *)

Lemma resetgiveaway_admin b caller :
  is_admin ADMIN_ID caller = true →
  resetgiveaway ADMIN_ID b caller =
    (AReset,
     save_users (save_codes
       (set_users (set_codes b (reset_code <$> codes b))
          (clear_history <$> users b)))).
Proof. intros H. unfold resetgiveaway. by rewrite H. Qed.

(** C6, as the code has it.  [resetgiveaway] by the admin clears the flag
    and the redeemer of every code and the history of every user, keeps the
    keys, the prizes and the users, and saves both documents.  After it,
    for every code stored (redeemed before or not), the first attempt by a
    user who is not banned succeeds with the code's prize and a second
    attempt by such a user is answered with the first one's snapshot. *)
Theorem reset_reopens_codes b caller :
  is_admin ADMIN_ID caller = true →
  let b0 := (resetgiveaway ADMIN_ID b caller).2 in
  codes b0 = reset_code <$> codes b ∧
  users b0 = clear_history <$> users b ∧
  banned_users b0 = banned_users b ∧
  saved b0 = (saved b ++ [SaveCodes (codes b0); SaveUsers (users b0)])%list ∧
  (∀ k c, codes b0 !! k = Some c → redeemed c = false ∧ redeemer c = None) ∧
  (∀ uid u, users b0 !! uid = Some u → redeemed_codes u = []) ∧
  (∀ k c user1 raw1 rest1 clock1 user2 raw2 rest2 clock2,
     codes b !! k = Some c → upper raw1 = k → upper raw2 = k →
     is_banned b0 (id user1) = false → is_banned b0 (id user2) = false →
     ∃ b1,
       redeem upper b0 user1 (raw1 :: rest1) clock1 = (RSuccess k (prize c), b1) ∧
       (redeem upper b1 user2 (raw2 :: rest2) clock2).1 =
         RAlreadyRedeemed (snapshot user1 (at_snapshot clock1))).
Proof.
  intros Hadm b0. subst b0. rewrite (resetgiveaway_admin _ _ Hadm). simpl.
  split; [done|]. split; [done|]. split; [done|].
  split; [by rewrite <- app_assoc|]. split; [|split].
  - intros k c. rewrite lookup_fmap.
    destruct (codes b !! k); simpl; [|done]. by intros [= <-].
  - intros uid u. rewrite lookup_fmap.
    destruct (users b !! uid); simpl; [|done]. by intros [= <-].
  - intros k c user1 raw1 rest1 clock1 user2 raw2 rest2 clock2 Hc H1 H2 Hb1 Hb2.
    apply (redeem_twice _ k (reset_code c)); try done.
    simpl. by rewrite lookup_fmap, Hc.
Qed.

(** ** Counting redeemed codes *)

Lemma count_insert_fresh uid (m : gmap string Code) k c :
  m !! k = None →
  size (filter (λ kv, redeemed_by uid kv.2) (<[k:=c]> m)) =
  size (filter (λ kv, redeemed_by uid kv.2) m) + one_if (redeemed_by uid c).
Proof.
  intros Hk. unfold one_if. destruct (decide (redeemed_by uid c)) as [Hc|Hc].
  - rewrite map_filter_insert_True by done.
    rewrite map_size_insert_None; [lia|].
    apply map_lookup_filter_None. by left.
  - rewrite map_filter_insert_False by done.
    rewrite delete_id by done. lia.
Qed.

Lemma count_insert uid (m : gmap string Code) k c :
  size (filter (λ kv, redeemed_by uid kv.2) (<[k:=c]> m)) =
  size (filter (λ kv, redeemed_by uid kv.2) (delete k m)) +
  one_if (redeemed_by uid c).
Proof.
  rewrite <- (insert_delete_eq m). apply count_insert_fresh, lookup_delete_eq.
Qed.

Lemma count_delete uid (m : gmap string Code) k c :
  m !! k = Some c →
  size (filter (λ kv, redeemed_by uid kv.2) m) =
  size (filter (λ kv, redeemed_by uid kv.2) (delete k m)) +
  one_if (redeemed_by uid c).
Proof.
  intros Hk. rewrite <- (insert_delete_id m k c Hk) at 1.
  apply count_insert_fresh, lookup_delete_eq.
Qed.

Lemma count_reset uid (m : gmap string Code) :
  size (filter (λ kv, redeemed_by uid kv.2) (reset_code <$> m)) = 0.
Proof.
  apply map_size_empty_iff, map_empty. intros k.
  apply map_lookup_filter_None. right. intros c.
  rewrite lookup_fmap. destruct (m !! k); simpl; [|done].
  intros [= <-]. unfold redeemed_by. simpl. done.
Qed.

Lemma not_redeemed_by_None uid c : redeemer c = None → ¬ redeemed_by uid c.
Proof. unfold redeemed_by. intros ->. done. Qed.

Lemma one_if_False (P : Prop) `{Decision P} : ¬ P → one_if P = 0.
Proof. intros. unfold one_if. by rewrite decide_False. Qed.

Lemma one_if_True (P : Prop) `{Decision P} : P → one_if P = 1.
Proof. intros. unfold one_if. by rewrite decide_True. Qed.

Lemma count_step_log b b1 uid s :
  CountStep b b1 uid → CountStep b (log_save b1 s) uid.
Proof.
  intros [H1 H2|H1 H2|H1 H2];
    [apply count_same|apply count_both|apply count_zero]; assumption.
Qed.

Lemma redeem_counts b user args clock uid :
  flag_agrees b →
  flag_agrees (redeem upper b user args clock).2 ∧
  CountStep b (redeem upper b user args clock).2 uid.
Proof.
  intros Hflag.
  assert (Hreg : flag_agrees (register_user b user (at_join clock)) ∧
            CountStep b (register_user b user (at_join clock)) uid).
  { split.
    - intros k c. rewrite register_user_codes. apply Hflag.
    - apply count_same;
        [apply register_user_claimed|apply register_user_history]. }
  unfold redeem. destruct (is_banned b (id user)).
  { split; [done|by apply count_same]. }
  destruct args as [|raw rest]; [done|]. cbv zeta.
  rewrite register_user_codes.
  destruct (codes b !! upper raw) as [c|] eqn:Hc; [|done].
  destruct (redeemed c) eqn:Hfc; [by destruct (redeemer c)|].
  simpl. destruct (register_user_known b user (at_join clock)) as [u Hu].
  rewrite Hu. simpl. split.
  - intros k x. simpl. rewrite lookup_insert. case_decide.
    + by intros [= <-].
    + apply Hflag.
  - assert (Hnone : redeemer c = None) by (by eapply Hflag).
    assert (Hold : claimed_by b uid =
              size (filter (λ kv, redeemed_by uid kv.2) (delete (upper raw) (codes b)))).
    { unfold claimed_by. rewrite (count_delete uid _ _ _ Hc).
      rewrite one_if_False by (by apply not_redeemed_by_None). lia. }
    assert (Hhist : history_len b uid =
              history_len (register_user b user (at_join clock)) uid)
      by (by rewrite register_user_history).
    destruct (decide (str (id user) = uid)) as [<-|Hne].
    + apply count_both.
      * unfold claimed_by at 1. simpl. rewrite count_insert, <- Hold.
        rewrite one_if_True by done. lia.
      * rewrite Hhist. unfold history_len. simpl.
        rewrite lookup_insert_eq, Hu. simpl. rewrite length_app. simpl. lia.
    + apply count_same.
      * unfold claimed_by at 1. simpl. rewrite count_insert, <- Hold.
        rewrite one_if_False; [lia|].
        unfold redeemed_by. simpl. congruence.
      * rewrite Hhist. unfold history_len. simpl.
        by rewrite lookup_insert_ne.
Qed.

Lemma insert_unredeemed b k c :
  codes b !! k = None → redeemer c = None → flag_agrees b →
  flag_agrees (set_codes b (<[k:=c]> (codes b))) ∧
  ∀ uid, CountStep b (set_codes b (<[k:=c]> (codes b))) uid.
Proof.
  intros Hk Hc Hflag. split.
  - intros j x. simpl. rewrite lookup_insert. case_decide.
    + by intros [= <-].
    + apply Hflag.
  - intros uid. apply count_same; [|done].
    unfold claimed_by. simpl. rewrite count_insert_fresh by done.
    rewrite one_if_False by (by apply not_redeemed_by_None). lia.
Qed.

Lemma addcode_counts b caller args now uid :
  flag_agrees b →
  flag_agrees (addcode ADMIN_ID upper b caller args now).2 ∧
  CountStep b (addcode ADMIN_ID upper b caller args now).2 uid.
Proof.
  intros Hflag. unfold addcode.
  destruct (is_admin ADMIN_ID caller); simpl; [|split; [done|by apply count_same]].
  destruct args as [|raw rest]; simpl; [split; [done|by apply count_same]|].
  destruct (codes b !! upper raw) eqn:Hc; simpl;
    [split; [done|by apply count_same]|].
  destruct (insert_unredeemed b (upper raw) (new_code now) Hc eq_refl Hflag)
    as [H1 H2].
  split; [apply H1|apply count_step_log, H2].
Qed.

Lemma addprize_counts b caller args uid :
  flag_agrees b →
  flag_agrees (addprize ADMIN_ID upper b caller args).2 ∧
  CountStep b (addprize ADMIN_ID upper b caller args).2 uid.
Proof.
  intros Hflag. unfold addprize.
  destruct (is_admin ADMIN_ID caller); simpl; [|split; [done|by apply count_same]].
  destruct args as [|raw [|a rest]]; simpl;
    [split; [done|by apply count_same]..|].
  destruct (codes b !! upper raw) as [c|] eqn:Hc; simpl;
    [|split; [done|by apply count_same]].
  split.
  - intros j x. simpl. rewrite lookup_insert. case_decide.
    + intros [= <-]. simpl. intros Hf. by eapply Hflag.
    + apply Hflag.
  - apply count_same; [|done]. unfold claimed_by. simpl.
    by rewrite count_insert, (count_delete uid _ _ _ Hc).
Qed.

Lemma delcode_counts b caller args uid :
  flag_agrees b →
  flag_agrees (delcode ADMIN_ID upper b caller args).2 ∧
  (CountStep b (delcode ADMIN_ID upper b caller args).2 uid ∨
   deletes_redeemed ADMIN_ID upper b (CmdDelcode caller args) = true ∧
   (claimed_by (delcode ADMIN_ID upper b caller args).2 uid ≤ claimed_by b uid)%nat ∧
   history_len (delcode ADMIN_ID upper b caller args).2 uid = history_len b uid).
Proof.
  intros Hflag. unfold delcode, deletes_redeemed.
  destruct (is_admin ADMIN_ID caller); simpl;
    [|split; [done|left; by apply count_same]].
  destruct args as [|raw rest]; simpl; [split; [done|left; by apply count_same]|].
  destruct (codes b !! upper raw) as [c|] eqn:Hc; simpl;
    [|split; [done|left; by apply count_same]].
  split.
  - intros j x. simpl. rewrite lookup_delete. case_decide; [done|apply Hflag].
  - unfold claimed_by. simpl. rewrite (count_delete uid _ _ _ Hc).
    destruct (redeemed c) eqn:Hfc.
    + right. split; [done|]. split; [lia|done].
    + left. apply count_same; [|done]. unfold claimed_by. simpl.
      rewrite (count_delete uid (codes b) _ _ Hc).
      rewrite one_if_False; [lia|].
      apply not_redeemed_by_None. by eapply Hflag.
Qed.

Lemma gen_loop_counts n : ∀ b prefix draws now acc keys b',
  gen_loop n b prefix draws now acc = Some (keys, b') → flag_agrees b →
  flag_agrees b' ∧
  ∀ uid, claimed_by b' uid = claimed_by b uid ∧
         history_len b' uid = history_len b uid.
Proof.
  induction n as [|n IH]; simpl; intros b prefix draws now acc keys b'.
  - by intros [= _ <-].
  - destruct (draw_code (codes b) prefix draws) as [[code rest]|] eqn:Ed;
      [|done].
    destruct (draw_code_spec _ _ _ _ _ Ed) as (Hfree & _).
    intros Hloop Hflag.
    destruct (insert_unredeemed b code
                (new_code (now (length acc))) Hfree eq_refl Hflag) as [H1 H2].
    destruct (IH _ _ _ _ _ _ _ Hloop H1) as [H3 H4].
    split; [done|]. intros uid. destruct (H4 uid) as [-> ->].
    assert (Hsame : claimed_by
              (set_codes b (<[code:=new_code (now (length acc))]> (codes b))) uid
              = claimed_by b uid).
    { unfold claimed_by. simpl. rewrite count_insert_fresh by done.
      rewrite one_if_False by (by apply not_redeemed_by_None). lia. }
    by rewrite Hsame.
Qed.

(** A command keeps the flag and the redeemer together, and moves the two
    counts of a user together unless it deletes a redeemed code. *)
Lemma exec_counts b c b' uid :
  flag_agrees b → exec ADMIN_ID py_int upper b c = Some b' →
  flag_agrees b' ∧
  (CountStep b b' uid ∨
   deletes_redeemed ADMIN_ID upper b c = true ∧
   (claimed_by b' uid ≤ claimed_by b uid)%nat ∧
   history_len b' uid = history_len b uid).
Proof.
  intros Hflag. destruct c; simpl.
  - intros [= <-]. unfold start.
    destruct (is_banned b (id user)); simpl.
    + split; [done|]. left. by apply count_same.
    + split.
      * intros k c. rewrite register_user_codes. apply Hflag.
      * left. apply count_same;
          [apply register_user_claimed|apply register_user_history].
  - intros [= <-].
    destruct (redeem_counts b user args clock uid Hflag). auto.
  - intros [= <-].
    destruct (addcode_counts b caller args now uid Hflag). auto.
  - intros [= <-].
    destruct (addprize_counts b caller args uid Hflag). auto.
  - intros [= <-]. apply delcode_counts, Hflag.
  - destruct (gencode _ _ _ _ _ _ _) as [[reply b1]|] eqn:Hrun; [|done].
    simpl. intros [= <-].
    destruct (gencode_inv _ _ _ _ _ _ _ Hrun)
      as [[-> _]|(a0 & a1 & rest & n & keys & b2 & _ & _ & _ & _ & Hloop & _ & ->)].
    + split; [done|]. left. by apply count_same.
    + destruct (gen_loop_counts _ _ _ _ _ _ _ _ Hloop Hflag) as [H1 H2].
      split; [apply H1|]. left. destruct (H2 uid). by apply count_same.
  - intros [= <-]. unfold ban_user.
    destruct (is_admin ADMIN_ID caller); simpl;
      [|split; [done|left; by apply count_same]].
    destruct args as [|a rest]; simpl; [split; [done|left; by apply count_same]|].
    destruct (decide (a = ADMIN_ID)); [split; [done|left; by apply count_same]|].
    destruct (decide (a ∈ banned_users b)); simpl;
      (split; [done|left; by apply count_same]).
  - intros [= <-]. unfold unban_user.
    destruct (is_admin ADMIN_ID caller); simpl;
      [|split; [done|left; by apply count_same]].
    destruct args as [|a rest]; simpl; [split; [done|left; by apply count_same]|].
    destruct (decide (a ∈ banned_users b)); simpl;
      (split; [done|left; by apply count_same]).
  - intros [= <-].
    destruct (is_admin ADMIN_ID caller) eqn:Hadm.
    + rewrite (resetgiveaway_admin _ _ Hadm). simpl. split.
      * intros k c. simpl. rewrite lookup_fmap.
        destruct (codes b !! k); simpl; [|done]. by intros [= <-].
      * left. apply count_zero.
        -- unfold claimed_by. simpl. apply count_reset.
        -- unfold history_len. simpl. rewrite lookup_fmap.
           by destruct (users b !! uid).
    + unfold resetgiveaway. rewrite Hadm. simpl.
      split; [done|]. left. by apply count_same.
Qed.

(** ** Both sides of a redemption *)

Lemma reaches_keeping_counts b0 b :
  flag_agrees b0 → (∀ uid, claimed_by b0 uid = history_len b0 uid) →
  reaches_keeping ADMIN_ID py_int upper b0 b →
  flag_agrees b ∧ ∀ uid, claimed_by b uid = history_len b uid.
Proof.
  intros Hflag Heq Hr.
  induction Hr as [|b c b' _ [IHf IHc] Hkeep Hex]; [done|].
  split; [by destruct (exec_counts b c b' "" IHf Hex)|].
  intros uid. specialize (IHc uid).
  destruct (exec_counts b c b' uid IHf Hex) as [_ [[H1 H2|H1 H2|H1 H2]|[Hdel _]]];
    [lia..|congruence].
Qed.

Lemma reaches_counts b0 b :
  flag_agrees b0 → (∀ uid, (claimed_by b0 uid ≤ history_len b0 uid)%nat) →
  reaches ADMIN_ID py_int upper b0 b →
  flag_agrees b ∧ ∀ uid, (claimed_by b uid ≤ history_len b uid)%nat.
Proof.
  intros Hflag Hle Hr.
  induction Hr as [|b c b' _ [IHf IHc] Hex]; [done|].
  split; [by destruct (exec_counts b c b' "" IHf Hex)|].
  intros uid. specialize (IHc uid).
  destruct (exec_counts b c b' uid IHf Hex)
    as [_ [[H1 H2|H1 H2|H1 H2]|(_ & H1 & H2)]]; lia.
Qed.

Lemma fresh_bot_counts :
  flag_agrees fresh_bot ∧ ∀ uid, claimed_by fresh_bot uid = history_len fresh_bot uid.
Proof.
  split.
  - intros k c Hk. simpl in Hk. by rewrite lookup_empty in Hk.
  - intros uid. unfold claimed_by, history_len. simpl.
    by rewrite map_filter_empty, map_size_empty, lookup_empty.
Qed.

(** C2, as the code has it.  Starting from the fresh bot, as long as no
    [delcode] removes a code that is redeemed, every user has as many
    records in the history as there are codes whose redeemer is that user.
    With such deletions allowed the codes can only be fewer than the
    records: [delcode] removes the code and leaves the history. *)
Theorem redemptions_consistent :
  (∀ b, reaches_keeping ADMIN_ID py_int upper fresh_bot b →
     ∀ uid u, users b !! uid = Some u →
       length (redeemed_codes u) = claimed_by b uid) ∧
  (∀ b, reaches ADMIN_ID py_int upper fresh_bot b →
     ∀ uid u, users b !! uid = Some u →
       (claimed_by b uid ≤ length (redeemed_codes u))%nat).
Proof.
  destruct fresh_bot_counts as [Hf Hc]. split.
  - intros b Hr uid u Hu.
    destruct (reaches_keeping_counts _ _ Hf Hc Hr) as [_ H].
    specialize (H uid). unfold history_len in H. rewrite Hu in H. done.
  - intros b Hr uid u Hu.
    assert (Hle : ∀ uid, (claimed_by fresh_bot uid ≤ history_len fresh_bot uid)%nat)
      by (intros; rewrite Hc; lia).
    destruct (reaches_counts _ _ Hf Hle Hr) as [_ H].
    specialize (H uid). unfold history_len in H. rewrite Hu in H. done.
Qed.

End Properties.

(** ** The properties at sample inputs *)

Lemma first_claim_stands_witness :
  (redeem ascii_upper bot_claimed (tg 43 "bob") ["A"] later).1 =
    RAlreadyRedeemed (snapshot (tg 42 "ann") "2024-01-01 12:00:00").
Proof.
  refine (proj1 (proj2 (proj2
    (first_claim_stands ascii_upper bot_code_a (tg 42 "ann") "a" [] noon "A"
       "No prize set" bot_claimed [] (tg 43 "bob") "A" [] later _ _))) _);
    vm_compute; reflexivity.
Defined.

(** With user 43 banned, the attempt on the redeemed code A is refused as
    banned, not as already redeemed. *)
Lemma banned_second_attempt :
  ∃ c r, codes bot_claimed_ban43 !! "A" = Some c ∧ redeemed c = true ∧
    redeemer c = Some r ∧
    (redeem ascii_upper bot_claimed_ban43 (tg 43 "bob") ["A"] later).1 = RBanned ∧
    (redeem ascii_upper bot_claimed_ban43 (tg 43 "bob") ["A"] later).1 ≠ RAlreadyRedeemed r.
Proof.
  do 2 eexists. split; [vm_compute; reflexivity|].
  split; [reflexivity|]. split; [reflexivity|].
  split; [vm_compute; reflexivity|]. vm_compute. discriminate.
Defined.

Lemma reaches_bot_claimed : reaches_keeping "1" int_2digits ascii_upper fresh_bot bot_claimed.
Proof.
  eapply (keeping_exec _ _ _ _ bot_code_a
            (CmdRedeem (tg 42 "ann") ["a"] noon)); [|reflexivity..].
  eapply (keeping_exec _ _ _ _ fresh_bot
            (CmdAddcode 1 ["A"] "2024-01-01T00:00:00")); [|reflexivity..].
  apply keeping_here.
Qed.

Lemma redemptions_consistent_witness :
  ∃ u, users bot_claimed !! "42" = Some u ∧
       length (redeemed_codes u) = claimed_by bot_claimed "42".
Proof.
  eexists. split; [vm_compute; reflexivity|].
  apply (proj1 (redemptions_consistent "1" int_2digits ascii_upper) bot_claimed
           reaches_bot_claimed "42").
  vm_compute; reflexivity.
Defined.

(** After [addcode A], [redeem a] by user 42 and [delcode A], user 42 has
    one record and no code names 42 as redeemer. *)
Lemma deleted_code_leaves_record :
  reaches "1" int_2digits ascii_upper fresh_bot bot_claimed_deleted ∧
  ∃ u, users bot_claimed_deleted !! "42" = Some u ∧
       length (redeemed_codes u) = 1 ∧
       claimed_by bot_claimed_deleted "42" = 0 ∧
       length (redeemed_codes u) ≠ claimed_by bot_claimed_deleted "42".
Proof.
  split.
  - eapply (reaches_exec _ _ _ _ bot_claimed (CmdDelcode 1 ["A"])); [|reflexivity].
    eapply (reaches_exec _ _ _ _ bot_code_a
              (CmdRedeem (tg 42 "ann") ["a"] noon)); [|reflexivity].
    eapply (reaches_exec _ _ _ _ fresh_bot
              (CmdAddcode 1 ["A"] "2024-01-01T00:00:00")); [|reflexivity].
    apply reaches_here.
  - eexists. split; [vm_compute; reflexivity|].
    split; [reflexivity|]. split; [vm_compute; reflexivity|].
    vm_compute. discriminate.
Defined.

Lemma stats_no_codes_raises_witness :
  stats "1" fresh_bot 1 = StRaised ZeroDivisionError.
Proof.
  apply stats_no_codes_raises; reflexivity.
Defined.

Lemma gencode_creates_witness :
  is_Some (gencode "1" int_2digits ascii_upper fresh_bot 1 ["2"; "x"] three_draws midnight).
Proof.
  refine (proj2 (proj2
    (gencode_creates "1" int_2digits ascii_upper fresh_bot 1 "2" "x" [] 2 three_draws
       midnight _ _) _) _).
  - reflexivity.
  - reflexivity.
  - vm_compute. discriminate.
  - vm_compute. repeat constructor.
Defined.

(** Asked for one code with prefix x, [gencode] creates XAAAA, which does
    not begin with x. *)
Lemma gencode_lowercase_prefix :
  fst <$> gencode "1" int_2digits ascii_upper fresh_bot 1 ["1"; "x"] three_draws midnight
    = Some (GGenerated 1 ["XAAAA"]) ∧
  ∀ sfx, "XAAAA" ≠ "x" ++ sfx.
Proof.
  split; [vm_compute; reflexivity|]. intros sfx H. simpl in H. discriminate H.
Defined.

Lemma reaches_bot_iphone : reaches "1" int_2digits ascii_upper fresh_bot bot_iphone.
Proof.
  eapply (reaches_exec _ _ _ _ _ (CmdAddprize 1 ["ABC123"; "iPhone"; "15"]));
    [|reflexivity].
  eapply (reaches_exec _ _ _ _ fresh_bot
            (CmdAddcode 1 ["ABC123"] "2024-01-01T00:00:00")); [|reflexivity].
  apply reaches_here.
Qed.

Lemma code_keys_uppercased_witness :
  (∃ b1 r,
     redeem ascii_upper bot_iphone (tg 42 "ann") ["abc123"] noon =
       (RSuccess "ABC123" "iPhone 15", b1) ∧
     (redeem ascii_upper b1 (tg 43 "bob") ["ABC123"] later).1 = RAlreadyRedeemed r ∧
     r_user_id r = "42") ∧
  keys_normalized ascii_upper bot_iphone ∧
  delcode "1" ascii_upper bot_iphone 1 ["abc123"] =
    (ADeleted "ABC123",
     save_codes (set_codes bot_iphone (delete "ABC123" (codes bot_iphone)))) ∧
  codes (delcode "1" ascii_upper
           (addcode "1" ascii_upper bot_claimed 1 ["Gift7"]
              "2024-01-04T00:00:00").2 1 ["gIFT7"]).2 = codes bot_claimed.
Proof.
  destruct (code_keys_uppercased "1" int_2digits ascii_upper)
    as (_ & _ & _ & Hdel & _ & Hfound & _ & Hnorm & Hscene).
  split; [|split; [|split]].
  - apply (Hscene eq_refl eq_refl bot_iphone
             (set_prize (new_code "2024-01-01T00:00:00") "iPhone 15")
             (tg 42 "ann") (tg 43 "bob") noon later);
      vm_compute; reflexivity.
  - apply Hnorm; [apply ascii_upper_idemp| |apply reaches_bot_iphone].
    intros prefix x.
    by rewrite ascii_upper_app, ascii_upper_idemp, ascii_upper_suffix_of.
  - apply (proj2 (Hdel bot_iphone 1%Z "abc123" [] eq_refl)).
    vm_compute. eauto.
  - destruct (Hfound bot_claimed 1%Z "Gift7" [] "2024-01-04T00:00:00" "gIFT7")
      as (_ & _ & _ & H); [reflexivity|vm_compute; reflexivity|reflexivity|].
    apply (H []).
Defined.

Lemma reset_reopens_codes_witness :
  ∃ b1,
    redeem ascii_upper (resetgiveaway "1" bot_claimed 1).2 (tg 43 "bob") ["a"] later =
      (RSuccess "A" "No prize set", b1) ∧
    (redeem ascii_upper b1 (tg 42 "ann") ["A"] noon).1 =
      RAlreadyRedeemed (snapshot (tg 43 "bob") "2024-01-02 09:30:00").
Proof.
  refine (proj2 (proj2 (proj2 (proj2 (proj2 (proj2
    (reset_reopens_codes "1" ascii_upper bot_claimed 1 _))))))
    "A" (claim (new_code "2024-01-01T00:00:00")
           (snapshot (tg 42 "ann") "2024-01-01 12:00:00"))
    (tg 43 "bob") "a" [] later (tg 42 "ann") "A" [] noon _ _ _ _ _);
    vm_compute; reflexivity.
Defined.

(** Code A was redeemed, user 42 is banned, the giveaway is reset: the
    first attempt on A, by user 42, is refused as banned. *)
Lemma banned_first_attempt_after_reset :
  (∃ c, codes bot_claimed_ban42 !! "A" = Some c ∧ redeemed c = true) ∧
  (redeem ascii_upper bot_ban42_reset (tg 42 "ann") ["A"] later).1 = RBanned ∧
  ∀ won, (redeem ascii_upper bot_ban42_reset (tg 42 "ann") ["A"] later).1 ≠ RSuccess "A" won.
Proof.
  split; [eexists; split; [vm_compute; reflexivity|reflexivity]|].
  split; [vm_compute; reflexivity|]. intros won. vm_compute. discriminate.
Defined.

Lemma admin_never_banned_witness :
  ban_user "1" fresh_bot 1 ["1"] = (BSelf, fresh_bot) ∧
  "1" ∉ banned_users bot_claimed_ban43.
Proof.
  split.
  - apply (proj1 (admin_never_banned "1" int_2digits ascii_upper) fresh_bot 1%Z []).
    reflexivity.
  - apply (proj1 (proj2 (proj2 (admin_never_banned "1" int_2digits ascii_upper)))
             fresh_bot bot_claimed_ban43).
    + vm_compute. apply not_elem_of_nil.
    + eapply (reaches_exec _ _ _ _ bot_claimed (CmdBan 1 ["43"])); [|reflexivity].
      eapply (reaches_exec _ _ _ _ bot_code_a
                (CmdRedeem (tg 42 "ann") ["a"] noon)); [|reflexivity].
      eapply (reaches_exec _ _ _ _ fresh_bot
                (CmdAddcode 1 ["A"] "2024-01-01T00:00:00")); [|reflexivity].
      apply reaches_here.
Defined.

Lemma redeem_failure_frame_witness :
  (redeem ascii_upper bot_claimed_ban43 (tg 43 "bob") ["A"] later).2 = bot_claimed_ban43 ∧
  codes (redeem ascii_upper bot_claimed (tg 43 "bob") ["A"] later).2 = codes bot_claimed.
Proof.
  split.
  - apply (proj1 (redeem_failure_frame ascii_upper bot_claimed_ban43 (tg 43 "bob") ["A"]
                    later RBanned _ eq_refl)).
    vm_compute; reflexivity.
  - refine (proj1 (proj2 (proj2 (redeem_failure_frame ascii_upper bot_claimed
              (tg 43 "bob") ["A"] later
              (RAlreadyRedeemed (snapshot (tg 42 "ann") "2024-01-01 12:00:00"))
              _ _) _))).
    + vm_compute; reflexivity.
    + right. eexists. reflexivity.
Defined.

Lemma ban_user_never_invalid_witness :
  "not-a-number" ∈ banned_users (ban_user "1" fresh_bot 1 ["not-a-number"]).2.
Proof.
  apply (proj1 (proj2 (proj2 (ban_user_never_invalid "1" fresh_bot 1
           ["not-a-number"])) "not-a-number" [] eq_refl eq_refl
           ltac:(discriminate))).
Defined.

(** ** Commands as sequences of effects *)

Section Coverage.

Variable ADMIN_ID : string.
Variable py_int : string → option Z.
Variable upper : string → string.

Local Arguments register_user : simpl never.

Lemma effects_one b b' : Effect b b' → Effects b b'.
Proof. intros H. eapply effects_more; [apply effects_none|done]. Qed.

Lemma register_user_effects b user now : Effects b (register_user b user now).
Proof.
  unfold register_user.
  destruct (users b !! str (id user)) eqn:E; [apply effects_none|].
  apply effects_one.
  by apply (eff_register _ _ (str (id user)) (new_user user now)).
Qed.

Lemma redeem_effects b user args clock :
  Effects b (redeem upper b user args clock).2.
Proof.
  unfold redeem. destruct (is_banned b (id user)) eqn:Hb; [apply effects_none|].
  pose proof (register_user_effects b user (at_join clock)) as Hreg.
  destruct args as [|raw rest]; [done|]. cbv zeta.
  destruct (codes (register_user b user (at_join clock)) !! upper raw)
    as [c|] eqn:Hc; [|done].
  destruct (redeemed c) eqn:Hfc; [by destruct (redeemer c)|].
  simpl. destruct (register_user_known b user (at_join clock)) as [u Hu].
  rewrite Hu. simpl. eapply effects_more; [apply Hreg|].
  eapply (eff_claim _ _ (upper raw) c _ (str (id user)) u);
    try done; try reflexivity.
  - apply bool_decide_eq_false in Hb. by rewrite register_user_banned.
  - simpl. by rewrite <- app_assoc.
Qed.

Lemma exec_effects b c b' :
  exec ADMIN_ID py_int upper b c = Some b' → Effects b b'.
Proof.
  destruct c; simpl.
  - intros [= <-]. unfold start.
    destruct (is_banned b (id user)); simpl;
      [apply effects_none|apply register_user_effects].
  - intros [= <-]. apply redeem_effects.
  - intros [= <-]. unfold addcode.
    destruct (is_admin ADMIN_ID caller); simpl; [|apply effects_none].
    destruct args as [|raw rest]; simpl; [apply effects_none|].
    destruct (codes b !! upper raw) eqn:Hc; simpl; [apply effects_none|].
    apply effects_one, (eff_new_codes _ _ [upper raw]); try done.
    + intros k Hk. apply list_elem_of_singleton in Hk as ->.
      split; [done|]. exists now. simpl. apply lookup_insert_eq.
    + intros k Hk. rewrite list_elem_of_singleton in Hk. simpl.
      by rewrite lookup_insert_ne.
  - intros [= <-]. unfold addprize.
    destruct (is_admin ADMIN_ID caller); simpl; [|apply effects_none].
    destruct args as [|raw [|a rest]]; simpl; [apply effects_none..|].
    destruct (codes b !! upper raw) as [x|] eqn:Hc; simpl; [|apply effects_none].
    apply effects_one. by eapply eff_prize.
  - intros [= <-]. unfold delcode.
    destruct (is_admin ADMIN_ID caller); simpl; [|apply effects_none].
    destruct args as [|raw rest]; simpl; [apply effects_none|].
    destruct (codes b !! upper raw) as [x|] eqn:Hc; simpl; [|apply effects_none].
    apply effects_one. by eapply eff_delete.
  - destruct (gencode _ _ _ _ _ _ _) as [[reply b1]|] eqn:Hrun; [|done].
    simpl. intros [= <-].
    destruct (gencode_inv _ _ _ _ _ _ _ _ _ _ Hrun)
      as [[-> _]|(a0 & a1 & rest & n & keys & b2 & _ & _ & _ & _ & Hloop & _ & ->)];
      [apply effects_none|].
    destruct (gen_loop_spec _ _ _ _ _ _ _ _ Hloop)
      as (new & _ & _ & _ & Hnew & Hold & Hu & Hb & Hs).
    apply effects_one, (eff_new_codes _ _ new); simpl; try done.
    + intros k Hk. destruct (Hnew _ Hk) as (H1 & _ & H3). by split.
    + by rewrite Hs.
  - intros [= <-]. unfold ban_user.
    destruct (is_admin ADMIN_ID caller); simpl; [|apply effects_none].
    destruct args as [|a rest]; simpl; [apply effects_none|].
    destruct (decide (a = ADMIN_ID)); [apply effects_none|].
    destruct (decide (a ∈ banned_users b)); simpl; [apply effects_none|].
    apply effects_one. by eapply eff_ban.
  - intros [= <-]. unfold unban_user.
    destruct (is_admin ADMIN_ID caller); simpl; [|apply effects_none].
    destruct args as [|a rest]; simpl; [apply effects_none|].
    destruct (decide (a ∈ banned_users b)); simpl; [|apply effects_none].
    apply effects_one. by eapply eff_unban.
  - intros [= <-]. unfold resetgiveaway.
    destruct (is_admin ADMIN_ID caller); simpl; [|apply effects_none].
    apply effects_one. eapply eff_reset; try done.
    simpl. by rewrite <- app_assoc.
Qed.

(** A property kept by every effect holds wherever commands lead. *)
Lemma reaches_invariant (P : Bot → Prop) b0 b :
  (∀ x y, Effect x y → P x → P y) →
  P b0 → reaches ADMIN_ID py_int upper b0 b → P b.
Proof.
  intros Hstep H0 Hr. induction Hr as [|b c b' _ IH Hex]; [done|].
  apply exec_effects in Hex.
  induction Hex as [|b1 b2 _ IH' Hone]; [done|]. by eapply Hstep.
Qed.

(** ** The flag and the redeemer *)

Lemma effect_flag_iff x y :
  Effect x y → flag_iff_redeemer x → flag_iff_redeemer y.
Proof.
  intros Heff Hinv k c.
  destruct Heff as
    [uid u0 _ _ _ Hc _ _
    |k0 c0 r uid u rec Hk0 Hf0 _ _ _ _ _ Hc _ _ _
    |keys Hnew Hold _ _ _
    |k0 c0 p Hk0 Hc _ _ _
    |k0 c0 Hk0 Hc _ _ _
    |a _ _ Hc _ _
    |a _ _ Hc _ _
    |Hc _ _ _]; try (rewrite Hc; apply Hinv).
  - rewrite Hc, lookup_insert. case_decide; [|apply Hinv].
    intros [= <-]. simpl. split; eauto.
  - destruct (decide (k ∈ keys)) as [Hin|Hout].
    + destruct (Hnew _ Hin) as (_ & t & ->). intros [= <-]. simpl.
      split; [done|]. by intros [? ?].
    + rewrite (Hold _ Hout). apply Hinv.
  - rewrite Hc, lookup_insert. case_decide; [|apply Hinv].
    intros [= <-]. simpl. by eapply Hinv.
  - rewrite Hc, lookup_delete. case_decide; [done|apply Hinv].
  - rewrite Hc, lookup_fmap. destruct (codes x !! k); simpl; [|done].
    intros [= <-]. simpl. split; [done|]. by intros [? ?].
Qed.

Lemma fresh_bot_flag_iff : flag_iff_redeemer fresh_bot.
Proof. intros k c Hk. simpl in Hk. by rewrite lookup_empty in Hk. Qed.

(** X1.  In every state the commands lead to from the fresh bot, a code has
    its flag set exactly when it has a redeemer; in any state where that
    holds [redeem] never raises; in a state where a code has the flag but no
    redeemer (a file edited by hand), an attempt on it by a user who is not
    banned raises [TypeError], after the user has been registered. *)
Theorem redeem_never_raises :
  (∀ b, reaches ADMIN_ID py_int upper fresh_bot b → flag_iff_redeemer b) ∧
  (∀ b user args clock e,
     flag_iff_redeemer b → (redeem upper b user args clock).1 ≠ RRaised e) ∧
  (∀ b user raw rest clock c,
     is_banned b (id user) = false → codes b !! upper raw = Some c →
     redeemed c = true → redeemer c = None →
     redeem upper b user (raw :: rest) clock =
       (RRaised TypeError, register_user b user (at_join clock))).
Proof.
  split; [|split].
  - intros b Hr.
    apply (reaches_invariant flag_iff_redeemer fresh_bot b effect_flag_iff
             fresh_bot_flag_iff Hr).
  - intros b user args clock e Hinv. unfold redeem.
    destruct (is_banned b (id user)); [done|].
    destruct args as [|raw rest]; [done|]. cbv zeta.
    rewrite register_user_codes.
    destruct (codes b !! upper raw) as [c|] eqn:Hc; [|done].
    destruct (redeemed c) eqn:Hfc.
    + destruct (proj1 (Hinv _ _ Hc) Hfc) as [r ->]. done.
    + simpl. destruct (register_user_known b user (at_join clock)) as [u Hu].
      by rewrite Hu.
  - intros b user raw rest clock c Hb Hc Hf Hr. unfold redeem. rewrite Hb.
    cbv zeta. by rewrite register_user_codes, Hc, Hf, Hr.
Qed.

(** ** Codes and histories *)

Lemma effect_redeemer_on_record x y :
  Effect x y → redeemer_on_record x → redeemer_on_record y.
Proof.
  intros Heff Hinv k c r.
  destruct Heff as
    [uid u0 Hnone _ Hu Hc _ _
    |k0 c0 r0 uid u rec Hk0 Hf0 Huid _ Hr0 Hrec _ Hc Hu _ _
    |keys Hnew Hold Hu _ _
    |k0 c0 p Hk0 Hc Hu _ _
    |k0 c0 Hk0 Hc Hu _ _
    |a _ _ Hc Hu _
    |a _ _ Hc Hu _
    |Hc Hu _ _].
  - rewrite Hc, Hu. intros Hk Hr.
    destruct (Hinv _ _ _ Hk Hr) as (u & rec & H1 & H2 & H3).
    exists u, rec. split; [|done].
    rewrite lookup_insert_ne; [done|]. intros ->. congruence.
  - rewrite Hc, Hu, lookup_insert. case_decide as Ek.
    + intros [= <-]. simpl. intros [= <-]. subst k.
      exists (add_redemption u rec), rec. rewrite Hr0, lookup_insert_eq.
      split; [done|]. split; [|done]. simpl.
      apply elem_of_app. right. by apply list_elem_of_singleton.
    + intros Hk Hr.
      destruct (Hinv _ _ _ Hk Hr) as (u1 & rec1 & H1 & H2 & H3).
      rewrite lookup_insert. case_decide as Eu.
      * exists (add_redemption u rec), rec1. split; [done|]. split; [|done].
        simpl. apply elem_of_app. left.
        rewrite <- Eu, Huid in H1. by injection H1 as <-.
      * by exists u1, rec1.
  - rewrite Hu. destruct (decide (k ∈ keys)) as [Hin|Hout].
    + destruct (Hnew _ Hin) as (_ & t & ->). by intros [= <-].
    + rewrite (Hold _ Hout). apply Hinv.
  - rewrite Hc, Hu, lookup_insert. case_decide; [|apply Hinv].
    intros [= <-]. simpl. subst k. by apply Hinv.
  - rewrite Hc, Hu, lookup_delete. case_decide; [done|apply Hinv].
  - rewrite Hc, Hu. apply Hinv.
  - rewrite Hc, Hu. apply Hinv.
  - rewrite Hc, lookup_fmap. destruct (codes x !! k); simpl; [|done].
    by intros [= <-].
Qed.

Lemma fresh_bot_on_record : redeemer_on_record fresh_bot.
Proof. intros k c r Hk. simpl in Hk. by rewrite lookup_empty in Hk. Qed.

(** X2.  In every state reached from the fresh bot, the redeemer of a code
    is a stored user, and that user's history has a record naming the code:
    no code is redeemed without the matching entry on the user's side. *)
Theorem redeemed_code_on_record b :
  reaches ADMIN_ID py_int upper fresh_bot b →
  ∀ k c r, codes b !! k = Some c → redeemer c = Some r →
    ∃ u rec, users b !! r_user_id r = Some u ∧
             rec ∈ redeemed_codes u ∧ rd_code rec = k.
Proof.
  intros Hr.
  apply (reaches_invariant redeemer_on_record fresh_bot b
           effect_redeemer_on_record fresh_bot_on_record Hr).
Qed.

(** ** Files and memory *)

Lemma file_codes_app l l' d : file_codes (l ++ l') d = file_codes l' (file_codes l d).
Proof.
  revert d. induction l as [|[x|x|x] l IH]; intros d; simpl; by rewrite ?IH.
Qed.

Lemma file_users_app l l' d : file_users (l ++ l') d = file_users l' (file_users l d).
Proof.
  revert d. induction l as [|[x|x|x] l IH]; intros d; simpl; by rewrite ?IH.
Qed.

Lemma file_banned_app l l' d :
  file_banned (l ++ l') d = file_banned l' (file_banned l d).
Proof.
  revert d. induction l as [|[x|x|x] l IH]; intros d; simpl; by rewrite ?IH.
Qed.

Lemma effect_files_in_sync x y : Effect x y → files_in_sync x → files_in_sync y.
Proof.
  intros Heff (Hc & Hu & Hb). unfold files_in_sync.
  destruct Heff as
    [uid u0 _ _ Eu Ec Eb Es
    |k0 c0 r uid u rec _ _ _ _ _ _ _ Ec Eu Eb Es
    |keys _ _ Eu Eb Es
    |k0 c0 p _ Ec Eu Eb Es
    |k0 c0 _ Ec Eu Eb Es
    |a _ Eb Ec Eu Es
    |a _ Eb Ec Eu Es
    |Ec Eu Eb Es];
    rewrite Es, file_codes_app, file_users_app, file_banned_app; simpl;
    rewrite ?Hc, ?Hu, ?Hb; repeat split; congruence.
Qed.

Lemma fresh_bot_in_sync : files_in_sync fresh_bot.
Proof. done. Qed.

(** X3.  Every command that changes a document saves it before it returns:
    in every state reached from the fresh bot, the document last handed to
    [save_data] for each of the three files is the one in memory, a file
    never written standing for a document still at its default. *)
Theorem memory_is_saved b :
  reaches ADMIN_ID py_int upper fresh_bot b →
  file_codes (saved b) ∅ = codes b ∧
  file_users (saved b) ∅ = users b ∧
  file_banned (saved b) [] = banned_users b.
Proof.
  intros Hr.
  apply (reaches_invariant files_in_sync fresh_bot b effect_files_in_sync
           fresh_bot_in_sync Hr).
Qed.

(** ** Users stay *)

Lemma same_identity_refl u : same_identity u u.
Proof. done. Qed.

Lemma effect_users_kept b0 x y : Effect x y → users_kept b0 x → users_kept b0 y.
Proof.
  intros Heff Hinv uid1 u1 H1.
  destruct (Hinv _ _ H1) as (u2 & H2 & Hid).
  destruct Heff as
    [uid u0 Hnone _ Eu _ _ _
    |k0 c0 r uid u rec _ _ Huid _ _ _ _ _ Eu _ _
    |keys _ _ Eu _ _
    |k0 c0 p _ _ Eu _ _
    |k0 c0 _ _ Eu _ _
    |a _ _ _ Eu _
    |a _ _ _ Eu _
    |_ Eu _ _]; rewrite Eu; try (by exists u2).
  - exists u2. split; [|done]. rewrite lookup_insert_ne; [done|].
    intros ->. congruence.
  - rewrite lookup_insert. case_decide as E; [|by exists u2].
    subst uid1. rewrite Huid in H2. injection H2 as <-.
    exists (add_redemption u rec). split; [done|]. apply Hid.
  - rewrite lookup_fmap, H2. simpl. exists (clear_history u2).
    split; [done|]. apply Hid.
Qed.

(** X4.  Users are never removed and never renamed: whatever commands
    follow, a stored user is still stored with the user name, first name,
    last name and join date written at registration (also when the same
    id comes back under other names). *)
Theorem users_stay b0 b uid u :
  reaches ADMIN_ID py_int upper b0 b → users b0 !! uid = Some u →
  ∃ u', users b !! uid = Some u' ∧
        username u' = username u ∧ first_name u' = first_name u ∧
        last_name u' = last_name u ∧ join_date u' = join_date u.
Proof.
  intros Hr Hu.
  assert (H0 : users_kept b0 b0).
  { intros uid1 u1 H1. exists u1. split; [done|apply same_identity_refl]. }
  apply (reaches_invariant (users_kept b0) b0 b (effect_users_kept b0) H0 Hr
           uid u Hu).
Qed.

(** ** The banned list *)

Lemma remove_first_not_in x l : x ∉ l → remove_first x l = l.
Proof.
  induction l as [|y l IH]; simpl; [done|].
  rewrite not_elem_of_cons. intros [Hne Hl].
  rewrite decide_False by done. by rewrite IH.
Qed.

Lemma remove_first_app_new x l : x ∉ l → remove_first x (l ++ [x]) = l.
Proof.
  induction l as [|y l IH]; simpl.
  - intros _. by rewrite decide_True.
  - rewrite not_elem_of_cons. intros [Hne Hl].
    rewrite decide_False by done. by rewrite IH.
Qed.

Lemma remove_first_NoDup x l :
  NoDup l → NoDup (remove_first x l) ∧ x ∉ remove_first x l.
Proof.
  induction 1 as [|y l Hy Hnd IH]; simpl.
  - split; [apply NoDup_nil_2|apply not_elem_of_nil].
  - destruct (decide (x = y)) as [->|Hne]; [done|].
    destruct IH as [IH1 IH2]. split.
    + apply NoDup_cons. split; [|done].
      intros Hin. by apply remove_first_subset in Hin.
    + rewrite not_elem_of_cons. done.
Qed.

Lemma effect_banned_NoDup x y :
  Effect x y → NoDup (banned_users x) → NoDup (banned_users y).
Proof.
  intros Heff Hnd.
  destruct Heff as
    [uid u0 _ _ _ _ Eb _
    |k0 c0 r uid u rec _ _ _ _ _ _ _ _ _ Eb _
    |keys _ _ _ Eb _
    |k0 c0 p _ _ _ Eb _
    |k0 c0 _ _ _ Eb _
    |a Ha Eb _ _ _
    |a _ Eb _ _ _
    |_ _ Eb _]; rewrite Eb; try done.
  - apply NoDup_app. split; [done|]. split; [|apply NoDup_singleton].
    intros z Hz Hz'. apply list_elem_of_singleton in Hz' as ->. done.
  - by apply remove_first_NoDup.
Qed.

(** X5.  From the fresh bot the banned list never holds an id twice, so one
    [unban] by the admin is enough: afterwards the id is not in the list
    and [is_banned] is false for that user.  (With an id listed twice, as
    a file edited by hand can have it, one [unban] removes one entry and
    the user stays banned.) *)
Theorem unban_lifts_ban :
  (∀ b, reaches ADMIN_ID py_int upper fresh_bot b → NoDup (banned_users b)) ∧
  (∀ b caller a rest,
     NoDup (banned_users b) → is_admin ADMIN_ID caller = true →
     a ∉ banned_users (unban_user ADMIN_ID b caller (a :: rest)).2) ∧
  (∀ b caller user rest,
     NoDup (banned_users b) → is_admin ADMIN_ID caller = true →
     is_banned (unban_user ADMIN_ID b caller (str (id user) :: rest)).2 (id user)
       = false) ∧
  (∀ b caller a rest l1 l2,
     is_admin ADMIN_ID caller = true →
     banned_users b = (l1 ++ a :: l2)%list → a ∈ l2 →
     a ∈ banned_users (unban_user ADMIN_ID b caller (a :: rest)).2).
Proof.
  assert (Hout : ∀ b caller a rest,
     NoDup (banned_users b) → is_admin ADMIN_ID caller = true →
     a ∉ banned_users (unban_user ADMIN_ID b caller (a :: rest)).2).
  { intros b caller a rest Hnd Hadm. unfold unban_user. rewrite Hadm. simpl.
    destruct (decide (a ∈ banned_users b)); simpl; [|done].
    by apply remove_first_NoDup. }
  split; [|split; [done|split]].
  - intros b Hr.
    apply (reaches_invariant (λ x, NoDup (banned_users x)) fresh_bot b
             effect_banned_NoDup); [apply NoDup_nil_2|done].
  - intros b caller user rest Hnd Hadm. unfold is_banned.
    apply bool_decide_eq_false. by apply Hout.
  - intros b caller a rest l1 l2 Hadm Hl Hin. unfold unban_user.
    rewrite Hadm. simpl. rewrite decide_True; simpl.
    + rewrite Hl. clear Hl. induction l1 as [|y l1 IH]; simpl.
      * by rewrite decide_True.
      * destruct (decide (a = y)) as [->|Hne].
        -- apply elem_of_app. right. apply elem_of_cons. right. done.
        -- apply elem_of_cons. right. apply IH.
    + rewrite Hl. apply elem_of_app. right. apply elem_of_cons. by left.
Qed.

(** X6.  [ban] by the admin of an id other than the admin's, not banned
    yet, puts the id at the end of the list and saves the list; from then
    on [start] and [redeem] by that user are refused and change nothing; a
    following [unban] gives the list back as it was. *)
Theorem ban_then_unban b caller user rest rest' :
  is_admin ADMIN_ID caller = true →
  str (id user) ≠ ADMIN_ID → str (id user) ∉ banned_users b →
  let b1 := (ban_user ADMIN_ID b caller (str (id user) :: rest)).2 in
  let b2 := (unban_user ADMIN_ID b1 caller (str (id user) :: rest')).2 in
  banned_users b1 = (banned_users b ++ [str (id user)])%list ∧
  codes b1 = codes b ∧ users b1 = users b ∧
  (∀ now, start b1 user now = (SBanned, b1)) ∧
  (∀ args clock, redeem upper b1 user args clock = (RBanned, b1)) ∧
  banned_users b2 = banned_users b ∧ codes b2 = codes b ∧ users b2 = users b ∧
  is_banned b2 (id user) = false.
Proof.
  intros Hadm Hne Hout b1 b2. subst b2 b1.
  unfold ban_user. rewrite Hadm. simpl.
  rewrite decide_False by done. rewrite decide_False by done. simpl.
  set (b1 := save_banned (set_banned b (banned_users b ++ [str (id user)]))).
  assert (Hin : str (id user) ∈ banned_users b1).
  { simpl. apply elem_of_app. right. by apply list_elem_of_singleton. }
  assert (Hban : is_banned b1 (id user) = true)
    by (by apply bool_decide_eq_true).
  split; [done|]. split; [done|]. split; [done|]. split.
  { intros now. unfold start. by rewrite Hban. }
  split.
  { intros args clock. by apply redeem_banned. }
  unfold unban_user. rewrite Hadm. simpl.
  rewrite decide_True by done. simpl.
  rewrite remove_first_app_new by done.
  split; [done|]. split; [done|]. split; [done|].
  unfold is_banned. by apply bool_decide_eq_false.
Qed.

(** ** Who may change what *)

(** X7.  A caller who is not the admin gets the admins-only answer from
    every admin command, and the bot stays as it was: no document changes
    and nothing is saved. *)
Theorem admin_commands_guarded b caller :
  is_admin ADMIN_ID caller = false →
  (∀ args now, addcode ADMIN_ID upper b caller args now = (AAdminOnly, b)) ∧
  (∀ args, addprize ADMIN_ID upper b caller args = (AAdminOnly, b)) ∧
  (∀ args, delcode ADMIN_ID upper b caller args = (AAdminOnly, b)) ∧
  (∀ args draws now,
     gencode ADMIN_ID py_int upper b caller args draws now = Some (GAdminOnly, b)) ∧
  (∀ args, ban_user ADMIN_ID b caller args = (BAdminOnly, b)) ∧
  (∀ args, unban_user ADMIN_ID b caller args = (BAdminOnly, b)) ∧
  resetgiveaway ADMIN_ID b caller = (AAdminOnly, b) ∧
  stats ADMIN_ID b caller = StAdminOnly ∧
  (∀ items, listcodes ADMIN_ID b caller items = LcAdminOnly) ∧
  (∀ args keys delivers,
     broadcast ADMIN_ID b caller args keys delivers = BcAdminOnly).
Proof.
  intros Hadm.
  unfold addcode, addprize, delcode, gencode, ban_user, unban_user,
    resetgiveaway, stats, listcodes, broadcast.
  rewrite Hadm. simpl. repeat split.
Qed.

(** X8.  [start] and [redeem], the commands open to everyone, leave the
    banned list, the set of code keys, every prize and creation date, and
    every other user's record as they were. *)
Theorem user_commands_frame b user :
  (∀ now,
     let b' := (start b user now).2 in
     banned_users b' = banned_users b ∧ codes b' = codes b ∧
     ∀ uid, uid ≠ str (id user) → users b' !! uid = users b !! uid) ∧
  (∀ args clock,
     let b' := (redeem upper b user args clock).2 in
     banned_users b' = banned_users b ∧
     (∀ k, is_Some (codes b' !! k) ↔ is_Some (codes b !! k)) ∧
     (∀ k c c', codes b !! k = Some c → codes b' !! k = Some c' →
        prize c' = prize c ∧ created_date c' = created_date c) ∧
     (∀ uid, uid ≠ str (id user) → users b' !! uid = users b !! uid)).
Proof.
  assert (Hreg : ∀ now uid, uid ≠ str (id user) →
            users (register_user b user now) !! uid = users b !! uid).
  { intros now uid Hne. unfold register_user.
    destruct (users b !! str (id user)); [done|]. simpl.
    by rewrite lookup_insert_ne. }
  split.
  - intros now b'. subst b'. unfold start.
    destruct (is_banned b (id user)); simpl; [done|].
    rewrite register_user_banned, register_user_codes. auto.
  - intros args clock b'. subst b'. split; [apply redeem_banned_list|].
    unfold redeem. destruct (is_banned b (id user)).
    { split; [done|]. split; [|done]. intros k c c' H1 H2.
      simpl in H2. rewrite H1 in H2. by injection H2 as <-. }
    assert (Hsame : ∀ k c c', codes b !! k = Some c → codes b !! k = Some c' →
              prize c' = prize c ∧ created_date c' = created_date c).
    { intros k c c' H1 H2. rewrite H1 in H2. by injection H2 as <-. }
    destruct args as [|raw rest];
      [simpl; rewrite register_user_codes; auto|].
    cbv zeta. rewrite register_user_codes.
    destruct (codes b !! upper raw) as [x|] eqn:Hx;
      [|simpl; rewrite register_user_codes; auto].
    destruct (redeemed x).
    { destruct (redeemer x); simpl; rewrite register_user_codes; auto. }
    simpl. destruct (register_user_known b user (at_join clock)) as [u Hu].
    rewrite Hu. simpl. split; [|split].
    + intros k. rewrite lookup_insert. case_decide; [|done].
      subst k. rewrite Hx. split; eauto.
    + intros k c c' H1. rewrite lookup_insert. case_decide.
      * subst k. rewrite Hx in H1. injection H1 as <-. by intros [= <-].
      * intros H2. by apply (Hsame k).
    + intros uid Hne. rewrite lookup_insert_ne by done. by apply Hreg.
Qed.

(** ** What a successful redemption writes *)

(** X9.  When [redeem] answers success, the argument named a stored,
    unredeemed code; the answer carries its uppercase key and its prize;
    the code now has the flag and the caller's snapshot, every other code
    is as before; the caller's history is the former one (empty for a new
    user) with one record added at the end, holding that key, that prize
    and the clock reading; every other user is as before; and codes, then
    users, are saved. *)
Theorem redeem_success_writes b user args clock code won b' :
  redeem upper b user args clock = (RSuccess code won, b') →
  ∃ raw rest c,
    args = raw :: rest ∧ code = upper raw ∧
    codes b !! code = Some c ∧ redeemed c = false ∧ won = prize c ∧
    codes b' = <[code := claim c (snapshot user (at_snapshot clock))]> (codes b) ∧
    from_option redeemed_codes [] (users b' !! str (id user)) =
      (from_option redeemed_codes [] (users b !! str (id user)) ++
       [{| rd_code := code; rd_prize := won; rd_date := at_record clock |}])%list ∧
    (∀ uid, uid ≠ str (id user) → users b' !! uid = users b !! uid) ∧
    banned_users b' = banned_users b ∧
    saved b' =
      (saved (register_user b user (at_join clock)) ++
       [SaveCodes (codes b'); SaveUsers (users b')])%list.
Proof.
  unfold redeem. destruct (is_banned b (id user)) eqn:Hb; [done|].
  destruct args as [|raw rest]; [done|]. cbv zeta.
  rewrite register_user_codes.
  destruct (codes b !! upper raw) as [c|] eqn:Hc; [|done].
  destruct (redeemed c) eqn:Hflag; [by destruct (redeemer c)|].
  simpl. destruct (register_user_known b user (at_join clock)) as [u Hu].
  rewrite Hu. intros [= <- <- <-]. exists raw, rest, c. simpl.
  rewrite ?register_user_banned.
  split; [done|]. split; [done|]. split; [done|]. split; [done|].
  split; [done|]. split; [done|]. split; [|split; [|split; [done|]]].
  - rewrite lookup_insert_eq. simpl. f_equal.
    revert Hu. unfold register_user.
    destruct (users b !! str (id user)) as [u0|] eqn:E; simpl.
    + rewrite E. by intros [= <-].
    + rewrite lookup_insert_eq. by intros [= <-].
  - intros uid Hne. rewrite lookup_insert_ne by done.
    unfold register_user. destruct (users b !! str (id user)); [done|].
    simpl. by rewrite lookup_insert_ne.
  - by rewrite <- app_assoc.
Qed.

(** ** Adding, pricing and deleting codes *)

(** X10.  For the admin: [addcode] of a key already stored answers that it
    exists and changes nothing; of a new key it stores an unredeemed code
    with the sentinel prize, leaves the other codes alone and makes the
    dictionary one entry larger; [delcode] of a key not stored answers
    that it is unknown and changes nothing; and [delcode] right after
    [addcode] of a new key, typed in any case, gives the codes back as they
    were. *)
Theorem addcode_delcode b caller raw rest now :
  is_admin ADMIN_ID caller = true →
  (is_Some (codes b !! upper raw) →
     addcode ADMIN_ID upper b caller (raw :: rest) now = (AExists (upper raw), b)) ∧
  (codes b !! upper raw = None →
     delcode ADMIN_ID upper b caller (raw :: rest) = (AUnknown (upper raw), b) ∧
     let b1 := (addcode ADMIN_ID upper b caller (raw :: rest) now).2 in
     (addcode ADMIN_ID upper b caller (raw :: rest) now).1 = AAdded (upper raw) ∧
     codes b1 !! upper raw = Some (new_code now) ∧
     (∀ k, k ≠ upper raw → codes b1 !! k = codes b !! k) ∧
     size (codes b1) = S (size (codes b)) ∧
     users b1 = users b ∧ banned_users b1 = banned_users b ∧
     ∀ raw' rest', upper raw' = upper raw →
       (delcode ADMIN_ID upper b1 caller (raw' :: rest')).1 = ADeleted (upper raw) ∧
       codes (delcode ADMIN_ID upper b1 caller (raw' :: rest')).2 = codes b).
Proof.
  intros Hadm. split.
  - intros [c Hc]. unfold addcode. by rewrite Hadm, Hc.
  - intros Hc. split; [unfold delcode; by rewrite Hadm, Hc|].
    unfold addcode. rewrite Hadm, Hc. simpl.
    split; [done|]. split; [apply lookup_insert_eq|].
    split; [intros k Hk; by rewrite lookup_insert_ne|].
    split; [by apply map_size_insert_None|]. split; [done|]. split; [done|].
    intros raw' rest' Hraw. unfold delcode. rewrite Hadm, Hraw. simpl.
    rewrite lookup_insert_eq. simpl. split; [done|].
    by apply delete_insert_id.
Qed.

(** X11.  For the admin, a stored code that is deleted is invalid to
    [redeem]; added again it is a new code: unredeemed, with the sentinel
    prize, whatever it was before, so a user who is not banned redeems it
    with success, while the users, with the record of an earlier
    redemption, are as before. *)
Theorem delcode_addcode_reopens b caller raw c now user clock :
  is_admin ADMIN_ID caller = true → codes b !! upper raw = Some c →
  is_banned b (id user) = false →
  let b1 := (delcode ADMIN_ID upper b caller [raw]).2 in
  let b2 := (addcode ADMIN_ID upper b1 caller [raw] now).2 in
  codes b1 !! upper raw = None ∧
  (redeem upper b1 user [raw] clock).1 = RInvalidCode ∧
  codes b2 !! upper raw = Some (new_code now) ∧
  (∀ k, k ≠ upper raw → codes b2 !! k = codes b !! k) ∧
  users b2 = users b ∧
  (redeem upper b2 user [raw] clock).1 = RSuccess (upper raw) "No prize set".
Proof.
  intros Hadm Hc Hb b1 b2. subst b2 b1.
  unfold delcode. rewrite Hadm, Hc. simpl.
  set (b1 := save_codes (set_codes b (delete (upper raw) (codes b)))).
  assert (H1 : codes b1 !! upper raw = None) by apply lookup_delete_eq.
  assert (Hb1 : is_banned b1 (id user) = false) by exact Hb.
  split; [done|]. split.
  { unfold redeem. rewrite Hb1. cbv zeta.
    by rewrite register_user_codes, H1. }
  unfold addcode. rewrite Hadm, H1. simpl.
  split; [apply lookup_insert_eq|]. split.
  { intros k Hk. rewrite lookup_insert_ne by done. by apply lookup_delete_ne. }
  split; [done|].
  set (b2 := save_codes (set_codes b1 _)).
  destruct (redeem_success upper b2 user raw [] clock (new_code now))
    as (b3 & -> & _); [done|apply lookup_insert_eq|done|done].
Qed.

(** X12.  For the admin and a stored code, [addprize] with at least one
    word of prize sets the prize to the words joined by single spaces and
    keeps the flag, the redeemer and the creation date; other codes, the
    users (so the prize written in a history at redemption time) and the
    banned list are as before; if the code is unredeemed, a user who is not
    banned then redeems it for the new prize.  With an unknown code, or
    without a prize word, nothing changes. *)
Theorem addprize_sets_prize b caller raw word words :
  is_admin ADMIN_ID caller = true →
  addprize ADMIN_ID upper b caller [raw] = (AUsage, b) ∧
  (codes b !! upper raw = None →
     addprize ADMIN_ID upper b caller (raw :: word :: words) = (AUnknown (upper raw), b)) ∧
  (∀ c, codes b !! upper raw = Some c →
     let p := join_space (word :: words) in
     let b1 := (addprize ADMIN_ID upper b caller (raw :: word :: words)).2 in
     (addprize ADMIN_ID upper b caller (raw :: word :: words)).1 = APrizeSet (upper raw) p ∧
     codes b1 !! upper raw =
       Some {| prize := p; redeemed := redeemed c; redeemer := redeemer c;
               created_date := created_date c |} ∧
     (∀ k, k ≠ upper raw → codes b1 !! k = codes b !! k) ∧
     users b1 = users b ∧ banned_users b1 = banned_users b ∧
     (redeemed c = false → ∀ user clock, is_banned b (id user) = false →
        (redeem upper b1 user [raw] clock).1 = RSuccess (upper raw) p)).
Proof.
  intros Hadm. unfold addprize. rewrite Hadm. simpl.
  split; [done|]. split; [by intros ->|].
  intros c Hc. rewrite Hc. simpl.
  split; [done|]. split; [apply lookup_insert_eq|].
  split; [intros k Hk; by rewrite lookup_insert_ne|].
  split; [done|]. split; [done|].
  intros Hflag user clock Hb.
  set (b1 := save_codes (set_codes b _)).
  destruct (redeem_success upper b1 user raw [] clock
              (set_prize c (join_space (word :: words))))
    as (b2 & -> & _); [done|apply lookup_insert_eq|done|done].
Qed.

(** ** Statistics *)

(** X13.  A [stats] report is given only when there is a code; in it the
    redeemed codes are at most the total, the available ones are the rest
    and not negative, and the success rate lies between 0 and 100. *)
Theorem stats_report_bounds b caller r :
  stats ADMIN_ID b caller = StReport r →
  is_admin ADMIN_ID caller = true ∧
  total_codes r = size (codes b) ∧ (0 < total_codes r)%nat ∧
  (redeemed_count r ≤ total_codes r)%nat ∧
  (Z.of_nat (redeemed_count r) + available r = Z.of_nat (total_codes r))%Z ∧
  (0 ≤ available r)%Z ∧
  (0 <= success_rate r)%Q ∧ (success_rate r <= 100)%Q.
Proof.
  unfold stats, truediv.
  destruct (is_admin ADMIN_ID caller); [|done]. cbv [negb].
  pose proof (map_size_filter (λ kv : string * Code, redeemed kv.2 = true)
                (codes b)) as Hle.
  destruct (size (codes b)) as [|n] eqn:E; [done|].
  intros [= <-]. cbn [total_codes redeemed_count available success_rate].
  set (red := size (filter (λ kv : string * Code, redeemed kv.2 = true) (codes b))) in *.
  split; [done|]. split; [done|]. split; [lia|]. split; [done|].
  split; [lia|]. split; [lia|].
  assert (Hpos : (0 < inject_Z (Z.of_nat (S n)))%Q).
  { change 0%Q with (inject_Z 0). rewrite <- Zlt_Qlt. lia. }
  assert (Hnn : (0 <= inject_Z (Z.of_nat red))%Q).
  { change 0%Q with (inject_Z 0). rewrite <- Zle_Qle. lia. }
  split.
  - apply Qmult_le_0_compat; [|by compute].
    apply Qle_shift_div_l; [done|]. by rewrite Qmult_0_l.
  - apply Qle_trans with (1 * 100)%Q; [|by compute].
    apply Qmult_le_compat_r; [|by compute].
    apply Qle_shift_div_r; [done|]. rewrite Qmult_1_l, <- Zle_Qle. lia.
Qed.

(** X14.  The active-users figure of [stats] is the users dictionary's size
    minus the banned list's length.  When no id is listed twice, that is
    the number of stored users who are not banned minus the number of
    banned ids that are not stored users: banning an id that never used
    the bot lowers the figure. *)
Theorem stats_active_users b caller r :
  stats ADMIN_ID b caller = StReport r → NoDup (banned_users b) →
  let stored : gset string := dom (users b) in
  let listed : gset string := list_to_set (banned_users b) in
  active_users r =
    (Z.of_nat (size (stored ∖ listed)) - Z.of_nat (size (listed ∖ stored)))%Z.
Proof.
  unfold stats, truediv.
  destruct (is_admin ADMIN_ID caller); [|done]. cbv [negb].
  destruct (size (codes b)) as [|n] eqn:E; [done|].
  intros [= <-] Hnd. cbn [active_users]. cbv zeta.
  set (stored := dom (users b) : gset string).
  set (listed := list_to_set (banned_users b) : gset string).
  rewrite <- (size_dom (users b)), <- (size_list_to_set (C := gset string) _ Hnd).
  fold stored listed.
  rewrite (size_difference_alt stored listed), (size_difference_alt listed stored).
  assert (H1 : (size (stored ∩ listed) ≤ size stored)%nat)
    by apply subseteq_size, intersection_subseteq_l.
  assert (H2 : (size (listed ∩ stored) ≤ size listed)%nat)
    by apply subseteq_size, intersection_subseteq_l.
  assert (H3 : listed ∩ stored = stored ∩ listed) by apply (comm_L _).
  rewrite H3 in *. lia.
Qed.

(** ** Sorting for the leaderboard *)

Lemma filter_none {A} (P : A → Prop) `{∀ x, Decision (P x)} (l : list A) :
  Forall (λ x, ¬ P x) l → filter P l = [].
Proof.
  induction 1 as [|x l Hx _ IH]; [done|].
  by rewrite filter_cons, decide_False.
Qed.

Section Sorting.

Context {A : Type} (key : A → nat).

Let above (x y : A) : Prop := (key y ≤ key x)%nat.

Lemma insert_desc_perm x l : insert_desc key x l ≡ₚ x :: l.
Proof.
  induction l as [|y l IH]; simpl; [done|].
  destruct (key x <? key y)%nat; [|done].
  rewrite IH. apply Permutation_swap.
Qed.

Lemma sorted_desc_perm l : sorted_desc key l ≡ₚ l.
Proof.
  induction l as [|x l IH]; simpl; [done|].
  unfold sorted_desc in *. simpl. by rewrite insert_desc_perm, IH.
Qed.

Lemma insert_desc_sorted x l :
  StronglySorted above l → StronglySorted above (insert_desc key x l).
Proof.
  induction 1 as [|y l Hl IH Hy]; simpl.
  - apply SSorted_cons; [apply SSorted_nil|apply Forall_nil_2].
  - destruct (key x <? key y)%nat eqn:E.
    + apply Nat.ltb_lt in E. apply SSorted_cons; [done|].
      rewrite insert_desc_perm. apply Forall_cons. split; [|done].
      unfold above. lia.
    + apply Nat.ltb_ge in E. apply SSorted_cons.
      * by apply SSorted_cons.
      * apply Forall_cons. split; [done|].
        eapply Forall_impl; [apply Hy|]. unfold above. intros z Hz. lia.
Qed.

Lemma sorted_desc_sorted l : StronglySorted above (sorted_desc key l).
Proof.
  induction l as [|x l IH]; [apply SSorted_nil|].
  unfold sorted_desc in *. simpl. by apply insert_desc_sorted.
Qed.

(** Entries with the same key keep the order they came in. *)
Lemma sorted_desc_stable n l :
  filter (λ y, key y = n) (sorted_desc key l) = filter (λ y, key y = n) l.
Proof.
  assert (Hins : ∀ x s, filter (λ y, key y = n) (insert_desc key x s) =
                        filter (λ y, key y = n) (x :: s)).
  { intros x s. induction s as [|y s IH]; simpl; [done|].
    destruct (key x <? key y)%nat eqn:E; [|done].
    apply Nat.ltb_lt in E. rewrite filter_cons, IH, !filter_cons.
    destruct (decide (key y = n)), (decide (key x = n)); try done. lia. }
  induction l as [|x l IH]; [done|].
  unfold sorted_desc in *. simpl. by rewrite Hins, !filter_cons, IH.
Qed.

Lemma sorted_lookup_le l : StronglySorted above l →
  ∀ j j' x y, l !! j = Some x → l !! j' = Some y → (j ≤ j')%nat →
    (key y ≤ key x)%nat.
Proof.
  induction 1 as [|a l Hl IH Ha]; intros j j' x y Hx Hy Hle.
  - by rewrite lookup_nil in Hx.
  - destruct j as [|j]; simpl in Hx.
    + injection Hx as <-. destruct j' as [|j']; simpl in Hy.
      * by injection Hy as <-.
      * apply list_elem_of_lookup_2 in Hy.
        by apply (proj1 (Forall_forall _ _) Ha).
    + destruct j' as [|j']; [lia|]. simpl in Hy.
      eapply IH; [done..|lia].
Qed.

(** Fewer than [j] entries beat the one at position [j]. *)
Lemma sorted_above_count l : StronglySorted above l →
  ∀ j x, l !! j = Some x →
    (length (filter (λ y, key x < key y)%nat l) ≤ j)%nat.
Proof.
  induction 1 as [|a l Hl IH Ha]; intros j x Hx.
  - by rewrite lookup_nil in Hx.
  - rewrite filter_cons. destruct j as [|j]; simpl in Hx.
    + injection Hx as <-. rewrite decide_False by lia.
      assert (Hnone : filter (λ y, key a < key y)%nat l = []).
      { apply filter_none. eapply Forall_impl; [apply Ha|].
        unfold above. intros z Hz. lia. }
      by rewrite Hnone.
    + specialize (IH _ _ Hx).
      destruct (decide (key x < key a)%nat); simpl; lia.
Qed.

End Sorting.

(** ** The leaderboard *)

Lemma board_rows_none i top :
  Forall (λ x, codes_count x = 0) top → board_rows i top = Some [].
Proof.
  intros H. revert i. induction H as [|x top Hx _ IH]; intros i; simpl; [done|].
  rewrite Hx. simpl. apply IH.
Qed.

Lemma board_rows_sorted top : ∀ i,
  StronglySorted (λ x y, (codes_count y ≤ codes_count x)%nat) top →
  (1 ≤ i)%nat → (i + length top ≤ 11)%nat →
  ∃ rows, board_rows i top = Some rows ∧
    length rows = length (filter (λ x, (0 < codes_count x)%nat) top) ∧
    ∀ j row, rows !! j = Some row →
      ∃ x, top !! j = Some x ∧ (0 < codes_count x)%nat ∧
           row_rank row = (i + j)%nat ∧
           medals !! (i + j - 1)%nat = Some (row_medal row) ∧
           row_name row = first_name x.2 ∧ row_count row = codes_count x.
Proof.
  induction top as [|x top IH]; intros i Hs Hi Hlen.
  - exists []. split; [done|]. split; [done|]. intros j row H.
    by rewrite lookup_nil in H.
  - apply StronglySorted_inv in Hs as [Hs Hx]. simpl in Hlen. simpl.
    rewrite filter_cons.
    destruct (0 <? codes_count x)%nat eqn:E.
    + apply Nat.ltb_lt in E. rewrite decide_True by done.
      destruct (lookup_lt_is_Some_2 medals (i - 1)) as [m Hm];
        [simpl; lia|].
      rewrite Hm.
      destruct (IH (S i) Hs) as (rows & -> & Hl & Hrows); [lia..|].
      eexists. split; [reflexivity|]. split; [simpl; by rewrite Hl|].
      intros [|j] row Hrow; simpl in Hrow.
      * injection Hrow as <-. exists x. simpl.
        replace (i + 0 - 1)%nat with (i - 1)%nat by lia.
        replace (i + 0)%nat with i by lia. done.
      * destruct (Hrows _ _ Hrow) as (y & H1 & H2 & H3 & H4 & H5 & H6).
        exists y. simpl.
        replace (i + S j - 1)%nat with (S i + j - 1)%nat by lia.
        replace (i + S j)%nat with (S i + j)%nat by lia. done.
    + apply Nat.ltb_ge in E. rewrite decide_False by lia.
      assert (Hzero : Forall (λ y, codes_count y = 0) top).
      { eapply Forall_impl; [apply Hx|]. simpl. intros y Hy. lia. }
      rewrite (board_rows_none _ _ Hzero).
      rewrite filter_none;
        [|eapply Forall_impl; [apply Hzero|]; simpl; intros y Hy; lia].
      exists []. split; [done|]. split; [done|]. intros j row H.
      by rewrite lookup_nil in H.
Qed.

Lemma sorted_take_positive (top : list (string * User)) : ∀ n,
  StronglySorted (λ x y, (codes_count y ≤ codes_count x)%nat) top →
  length (filter (λ x, (0 < codes_count x)%nat) (take n top)) =
  (n `min` length (filter (λ x, (0 < codes_count x)%nat) top))%nat.
Proof.
  induction top as [|x top IH]; intros n Hs.
  - rewrite take_nil. simpl. lia.
  - apply StronglySorted_inv in Hs as [Hs Hx].
    destruct n as [|n]; [done|]. simpl. rewrite !filter_cons.
    destruct (decide (0 < codes_count x)%nat) as [Hp|Hp]; simpl.
    + by rewrite IH.
    + assert (Hzero : Forall (λ y, ¬ (0 < codes_count y)%nat) top).
      { eapply Forall_impl; [apply Hx|]. simpl. intros y Hy. lia. }
      rewrite (filter_none _ top Hzero).
      rewrite filter_none; [simpl; lia|]. by apply Forall_take.
Qed.

Lemma sorted_take {A} (R : A → A → Prop) (l : list A) n :
  StronglySorted R l → StronglySorted R (take n l).
Proof.
  intros Hs. rewrite <- (take_drop n l) in Hs.
  by apply StronglySorted_app_1_l in Hs.
Qed.

(** The rows [leaderboard] computes, before the reply is chosen. *)
Lemma leaderboard_rows_spec (items : list (string * User)) :
  ∃ rows,
    board_rows 1 (take 10 (sorted_desc codes_count items)) = Some rows ∧
    length rows =
      (10 `min` length (filter (λ x, (0 < codes_count x)%nat) items))%nat ∧
    ∀ j row, rows !! j = Some row →
      row_rank row = S j ∧ medals !! j = Some (row_medal row) ∧
      (0 < row_count row)%nat ∧
      (∃ x, x ∈ items ∧ row_name row = first_name x.2 ∧
            row_count row = codes_count x) ∧
      (length (filter (λ x, (row_count row < codes_count x)%nat) items) ≤ j)%nat ∧
      (∀ j' row', (j ≤ j')%nat → rows !! j' = Some row' →
         (row_count row' ≤ row_count row)%nat).
Proof.
  set (S := sorted_desc codes_count items).
  assert (Hs : StronglySorted (λ x y, (codes_count y ≤ codes_count x)%nat) S)
    by apply sorted_desc_sorted.
  assert (Hp : S ≡ₚ items) by apply sorted_desc_perm.
  assert (Hst : StronglySorted (λ x y, (codes_count y ≤ codes_count x)%nat)
                  (take 10 S)) by (by apply sorted_take).
  destruct (board_rows_sorted (take 10 S) 1 Hst) as (rows & Hrun & Hlen & Hrows);
    [lia|rewrite length_take; lia|].
  exists rows. split; [done|]. split.
  { rewrite Hlen, sorted_take_positive by done. by rewrite Hp. }
  intros j row Hrow.
  destruct (Hrows _ _ Hrow) as (x & Hx & Hpos & Hrank & Hmedal & Hname & Hcount).
  apply lookup_take_Some in Hx as [Hx Hj].
  split; [by rewrite Hrank|].
  split; [by replace (1 + j - 1)%nat with j in Hmedal by lia|].
  split; [by rewrite Hcount|]. split; [|split].
  - exists x. split; [|done]. rewrite <- Hp. by eapply list_elem_of_lookup_2.
  - rewrite <- Hp, Hcount. by apply sorted_above_count.
  - intros j' row' Hle Hrow'.
    destruct (Hrows _ _ Hrow') as (x' & Hx' & _ & _ & _ & _ & Hcount').
    apply lookup_take_Some in Hx' as [Hx' _].
    rewrite Hcount, Hcount'.
    by apply (sorted_lookup_le codes_count S Hs j j').
Qed.

Lemma no_positive_iff b (items : list (string * User)) :
  items ≡ₚ map_to_list (users b) →
  filter (λ x, (0 < codes_count x)%nat) items = [] ↔
  ∀ uid u, users b !! uid = Some u → redeemed_codes u = [].
Proof.
  intros Hp. split.
  - intros Hnil uid u Hu.
    apply elem_of_map_to_list in Hu. rewrite <- Hp in Hu.
    destruct (redeemed_codes u) as [|r l] eqn:E; [done|].
    exfalso. eapply (filter_nil_not_elem_of _ _ _ Hnil); [|done].
    unfold codes_count. simpl. rewrite E. simpl. lia.
  - intros Hall. apply filter_none, Forall_forall. intros [uid u] Hin.
    rewrite Hp in Hin. apply elem_of_map_to_list in Hin.
    unfold codes_count. simpl. rewrite (Hall _ _ Hin). simpl. lia.
Qed.

(** X15.  The rows of the leaderboard, [items] being the entries of
    [users]: there is at least one row and there are as many rows as users
    with a redemption, up to ten; the row at position [j] (from 0) has rank
    [j + 1] and the medal at that position of [medals]; it shows the first
    name and the number of redemptions, at least one, of a stored user;
    fewer than [j + 1] users have more redemptions than it shows, and no
    later row shows more. *)
Theorem leaderboard_board b items rows :
  items ≡ₚ map_to_list (users b) → leaderboard b items = LBoard rows →
  rows ≠ [] ∧
  length rows =
    (10 `min` length (filter (λ x, (0 < codes_count x)%nat) items))%nat ∧
  ∀ j row, rows !! j = Some row →
    row_rank row = S j ∧ medals !! j = Some (row_medal row) ∧
    (0 < row_count row)%nat ∧
    (∃ uid u, users b !! uid = Some u ∧ row_name row = first_name u ∧
              row_count row = length (redeemed_codes u)) ∧
    (length (filter (λ x, (row_count row < codes_count x)%nat) items) ≤ j)%nat ∧
    (∀ j' row', (j ≤ j')%nat → rows !! j' = Some row' →
       (row_count row' ≤ row_count row)%nat).
Proof.
  intros Hp. unfold leaderboard.
  destruct (decide (users b = ∅)); [done|].
  destruct (leaderboard_rows_spec items) as (rows0 & -> & Hlen & Hrows).
  destruct rows0 as [|r rs]; [done|]. intros [= <-].
  split; [done|]. split; [done|]. intros j row Hrow.
  destruct (Hrows _ _ Hrow) as (H1 & H2 & H3 & ([uid u] & Hin & H4 & H5) & H6 & H7).
  split; [done|]. split; [done|]. split; [done|]. split; [|done].
  exists uid, u. split; [|done].
  rewrite Hp in Hin. by apply elem_of_map_to_list in Hin.
Qed.

(** X16.  [leaderboard] never runs past the end of [medals]; it answers
    that there are no users exactly when [users] is empty, and that there
    are no winners exactly when there are users and every history is
    empty, as it is for every user right after [resetgiveaway] by the
    admin. *)
Theorem leaderboard_replies b items :
  items ≡ₚ map_to_list (users b) →
  leaderboard b items ≠ LIndexError ∧
  (leaderboard b items = LNoUsers ↔ users b = ∅) ∧
  (leaderboard b items = LNoWinners ↔
     users b ≠ ∅ ∧ ∀ uid u, users b !! uid = Some u → redeemed_codes u = []) ∧
  (∀ caller items',
     is_admin ADMIN_ID caller = true → users b ≠ ∅ →
     items' ≡ₚ map_to_list (users (resetgiveaway ADMIN_ID b caller).2) →
     leaderboard (resetgiveaway ADMIN_ID b caller).2 items' = LNoWinners).
Proof.
  intros Hp.
  assert (Hwin : ∀ b0 items0, items0 ≡ₚ map_to_list (users b0) →
            (leaderboard b0 items0 = LNoWinners ↔
               users b0 ≠ ∅ ∧
               ∀ uid u, users b0 !! uid = Some u → redeemed_codes u = [])).
  { intros b0 items0 Hp0. unfold leaderboard.
    destruct (decide (users b0 = ∅)) as [He|Hne]; [by split; [|intros [? _]]|].
    destruct (leaderboard_rows_spec items0) as (rows0 & -> & Hlen & _).
    rewrite <- (no_positive_iff b0 items0 Hp0).
    destruct rows0 as [|r rs]; simpl in Hlen.
    - split; [|done]. intros _. split; [done|].
      destruct (filter _ items0); [done|]. simpl in Hlen. lia.
    - split; [done|]. intros [_ Hnil]. rewrite Hnil in Hlen. simpl in Hlen. lia. }
  split; [|split; [|split]].
  - unfold leaderboard. destruct (decide (users b = ∅)); [done|].
    destruct (leaderboard_rows_spec items) as (rows0 & -> & _).
    by destruct rows0.
  - unfold leaderboard. destruct (decide (users b = ∅)); [done|].
    destruct (leaderboard_rows_spec items) as (rows0 & -> & _).
    by destruct rows0.
  - by apply Hwin.
  - intros caller items' Hadm Hne Hp'. apply Hwin; [done|].
    rewrite (resetgiveaway_admin _ _ _ Hadm). simpl. split.
    + intros He. apply Hne. by apply fmap_empty_inv in He.
    + intros uid u. rewrite lookup_fmap.
      destruct (users b !! uid); simpl; [|done]. by intros [= <-].
Qed.

(** ** Listing the codes *)

Lemma code_lines_spec (items : list (string * Code)) :
  (∀ k c, (k, c) ∈ items → redeemed c = true → is_Some (redeemer c)) →
  ∃ lines, code_lines items = inr lines ∧ length lines = length items ∧
    ∀ j line, lines !! j = Some line →
      ∃ k c, items !! j = Some (k, c) ∧
        line = {| line_code := k; line_prize := prize c;
                  line_redeemed := redeemed c;
                  line_by := if redeemed c then r_first_name <$> redeemer c
                             else None |}.
Proof.
  induction items as [|[k c] items IH]; intros Hok.
  - exists []. split; [done|]. split; [done|]. intros j line H.
    by rewrite lookup_nil in H.
  - destruct IH as (lines & Hrun & Hlen & Hlines).
    { intros k' c' Hin. apply (Hok k'). by apply elem_of_cons; right. }
    simpl. rewrite Hrun.
    assert (Hhere : redeemed c = true → is_Some (redeemer c))
      by (apply (Hok k); by apply elem_of_cons; left).
    destruct (redeemed c) eqn:Hf.
    + destruct (Hhere eq_refl) as [r Hr]. rewrite Hr.
      eexists. split; [reflexivity|]. split; [simpl; by rewrite Hlen|].
      intros [|j] line Hl; simpl in Hl.
      * injection Hl as <-. exists k, c. by rewrite Hf, Hr.
      * by apply Hlines.
    + eexists. split; [reflexivity|]. split; [simpl; by rewrite Hlen|].
      intros [|j] line Hl; simpl in Hl.
      * injection Hl as <-. exists k, c. by rewrite Hf.
      * by apply Hlines.
Qed.

(** X17.  [listcodes] for the admin, [items] being the entries of [codes]:
    with no code it says so; otherwise, in a state where every flagged
    code has a redeemer (every state reached from the fresh bot), it does
    not raise and lists each code once, in the order of [items], with its
    prize and flag and, for a redeemed code, the first name in the
    snapshot.  A flagged code without redeemer makes it raise. *)
Theorem listcodes_lists b caller items :
  is_admin ADMIN_ID caller = true → items ≡ₚ map_to_list (codes b) →
  (codes b = ∅ → listcodes ADMIN_ID b caller items = LcNoCodes) ∧
  (codes b ≠ ∅ → flag_iff_redeemer b →
     ∃ lines, listcodes ADMIN_ID b caller items = LcLines lines ∧
       length lines = size (codes b) ∧
       ∀ j line, lines !! j = Some line →
         ∃ k c, items !! j = Some (k, c) ∧ codes b !! k = Some c ∧
           line_code line = k ∧ line_prize line = prize c ∧
           line_redeemed line = redeemed c ∧
           line_by line = r_first_name <$> redeemer c) ∧
  (∀ k c, codes b !! k = Some c → redeemed c = true → redeemer c = None →
     listcodes ADMIN_ID b caller items = LcRaised TypeError).
Proof.
  intros Hadm Hp. unfold listcodes. rewrite Hadm. simpl.
  split; [|split].
  - intros He. by rewrite decide_True.
  - intros Hne Hinv. rewrite decide_False by done.
    destruct (code_lines_spec items) as (lines & -> & Hlen & Hlines).
    { intros k c Hin Hf. rewrite Hp in Hin.
      apply elem_of_map_to_list in Hin. by apply (Hinv _ _ Hin). }
    exists lines. split; [done|].
    split; [by rewrite Hlen, Hp, length_map_to_list|].
    intros j line Hl. destruct (Hlines _ _ Hl) as (k & c & Hj & ->).
    exists k, c. simpl.
    assert (Hk : codes b !! k = Some c).
    { apply elem_of_map_to_list. rewrite <- Hp.
      by eapply list_elem_of_lookup_2. }
    split; [done|]. split; [done|]. split; [done|]. split; [done|].
    split; [done|]. destruct (redeemed c) eqn:Hf; [done|].
    destruct (redeemer c) as [r|] eqn:Hr; [|done].
    assert (redeemed c = true) by (apply (Hinv _ _ Hk); eauto). congruence.
  - intros k c Hk Hf Hr.
    assert (Hne : codes b ≠ ∅) by (intros He; by rewrite He, lookup_empty in Hk).
    rewrite decide_False by done.
    assert (Hin : (k, c) ∈ items)
      by (rewrite Hp; by apply elem_of_map_to_list).
    clear Hp Hk Hne.
    assert (Hraise : code_lines items = inl TypeError).
    { induction items as [|[k' c'] items IH]; [by apply elem_of_nil in Hin|].
      apply elem_of_cons in Hin as [[= <- <-]|Hin]; simpl.
      - by rewrite Hf, Hr.
      - rewrite (IH Hin).
        destruct (redeemed c'); [|done]. by destruct (redeemer c'). }
    by rewrite Hraise.
Qed.

(** ** Broadcast *)




End Coverage.

(** ** The further properties at sample inputs *)

Lemma reaches_claimed : reaches "1" int_2digits ascii_upper fresh_bot bot_claimed.
Proof.
  eapply (reaches_exec _ _ _ _ bot_code_a
            (CmdRedeem (tg 42 "ann") ["a"] noon)); [|reflexivity].
  eapply (reaches_exec _ _ _ _ fresh_bot
            (CmdAddcode 1 ["A"] "2024-01-01T00:00:00")); [|reflexivity].
  apply reaches_here.
Qed.

Lemma reaches_claimed_ban43 :
  reaches "1" int_2digits ascii_upper fresh_bot bot_claimed_ban43.
Proof.
  eapply (reaches_exec _ _ _ _ bot_claimed (CmdBan 1 ["43"])); [|reflexivity].
  apply reaches_claimed.
Qed.

Lemma bot_claimed_flag_iff : flag_iff_redeemer bot_claimed.
Proof.
  apply (reaches_invariant "1" int_2digits ascii_upper flag_iff_redeemer fresh_bot
           bot_claimed effect_flag_iff fresh_bot_flag_iff reaches_claimed).
Qed.

Lemma users_claimed_not_empty : users bot_claimed ≠ ∅.
Proof.
  intros H. apply (f_equal (λ m, m !! "42")) in H. vm_compute in H.
  discriminate H.
Qed.

Lemma redeem_never_raises_witness :
  (redeem ascii_upper bot_claimed (tg 43 "bob") ["A"] later).1 ≠ RRaised TypeError.
Proof.
  apply (proj1 (proj2 (redeem_never_raises "1" int_2digits ascii_upper))).
  apply (proj1 (redeem_never_raises "1" int_2digits ascii_upper)), reaches_claimed.
Defined.

Lemma redeemed_code_on_record_witness :
  ∃ u rec, users bot_claimed !! "42" = Some u ∧
           rec ∈ redeemed_codes u ∧ rd_code rec = "A".
Proof.
  apply (redeemed_code_on_record "1" int_2digits ascii_upper bot_claimed reaches_claimed
           "A" (claim (new_code "2024-01-01T00:00:00")
                  (snapshot (tg 42 "ann") "2024-01-01 12:00:00"))
           (snapshot (tg 42 "ann") "2024-01-01 12:00:00"));
    vm_compute; reflexivity.
Defined.

Lemma memory_is_saved_witness :
  file_codes (saved bot_claimed) ∅ = codes bot_claimed ∧
  file_users (saved bot_claimed) ∅ = users bot_claimed ∧
  file_banned (saved bot_claimed) [] = banned_users bot_claimed.
Proof.
  apply (memory_is_saved "1" int_2digits ascii_upper), reaches_claimed.
Defined.

Lemma users_stay_witness :
  ∃ u', users bot_ann_renamed !! "42" = Some u' ∧
        username u' = username ann_record ∧
        first_name u' = first_name ann_record ∧
        last_name u' = last_name ann_record ∧
        join_date u' = join_date ann_record.
Proof.
  apply (users_stay "1" int_2digits ascii_upper bot_claimed bot_ann_renamed "42").
  - eapply (reaches_exec _ _ _ _ bot_claimed
              (CmdRedeem _ ["nope"] later)); [apply reaches_here|reflexivity].
  - vm_compute; reflexivity.
Defined.

Lemma unban_lifts_ban_witness :
  "43" ∉ banned_users (unban_user "1" bot_claimed_ban43 1 ["43"]).2.
Proof.
  apply (proj1 (proj2 (unban_lifts_ban "1" int_2digits ascii_upper))).
  - apply (proj1 (unban_lifts_ban "1" int_2digits ascii_upper)), reaches_claimed_ban43.
  - reflexivity.
Defined.

Lemma ban_then_unban_witness :
  redeem ascii_upper (ban_user "1" bot_claimed 1 ["43"]).2 (tg 43 "bob") ["A"] later =
    (RBanned, (ban_user "1" bot_claimed 1 ["43"]).2).
Proof.
  destruct (ban_then_unban "1" ascii_upper bot_claimed 1 (tg 43 "bob") [] [])
    as (_ & _ & _ & _ & H & _).
  - reflexivity.
  - vm_compute. discriminate.
  - vm_compute. apply not_elem_of_nil.
  - apply H.
Defined.

Lemma admin_commands_guarded_witness :
  addcode "1" ascii_upper fresh_bot 7 ["A"] "2024-01-01T00:00:00" = (AAdminOnly, fresh_bot).
Proof.
  apply (proj1 (admin_commands_guarded "1" int_2digits ascii_upper fresh_bot 7 eq_refl)).
Defined.

Lemma user_commands_frame_witness :
  users (redeem ascii_upper bot_claimed (tg 43 "bob") ["A"] later).2 !! "42" =
  users bot_claimed !! "42".
Proof.
  apply (proj2 (proj2 (proj2
    (proj2 (user_commands_frame ascii_upper bot_claimed (tg 43 "bob")) ["A"] later)))).
  vm_compute. discriminate.
Defined.

Lemma redeem_success_writes_witness :
  ∃ raw rest c,
    ["a"] = raw :: rest ∧ "A" = ascii_upper raw ∧
    codes bot_code_a !! "A" = Some c ∧ redeemed c = false.
Proof.
  destruct (redeem_success_writes ascii_upper bot_code_a (tg 42 "ann") ["a"] noon "A"
              "No prize set" bot_claimed eq_refl)
    as (raw & rest & c & H1 & H2 & H3 & H4 & _).
  by exists raw, rest, c.
Defined.

Lemma addcode_delcode_witness :
  codes (delcode "1" ascii_upper (addcode "1" ascii_upper bot_claimed 1 ["b"] "2024-01-04T00:00:00").2
           1 ["B"]).2 = codes bot_claimed.
Proof.
  destruct (addcode_delcode "1" ascii_upper bot_claimed 1 "b" [] "2024-01-04T00:00:00"
              eq_refl) as [_ H].
  destruct H as (_ & H); [vm_compute; reflexivity|].
  cbv zeta in H. destruct H as (_ & _ & _ & _ & _ & _ & H).
  apply (H "B" []). reflexivity.
Defined.

Lemma delcode_addcode_reopens_witness :
  (redeem ascii_upper (addcode "1" ascii_upper (delcode "1" ascii_upper bot_claimed 1 ["a"]).2 1 ["a"]
             "2024-01-04T00:00:00").2 (tg 43 "bob") ["a"] later).1 =
    RSuccess "A" "No prize set".
Proof.
  destruct (delcode_addcode_reopens "1" ascii_upper bot_claimed 1 "a"
              (claim (new_code "2024-01-01T00:00:00")
                 (snapshot (tg 42 "ann") "2024-01-01 12:00:00"))
              "2024-01-04T00:00:00" (tg 43 "bob") later)
    as (_ & _ & _ & _ & _ & H);
    [reflexivity|vm_compute; reflexivity|vm_compute; reflexivity|].
  exact H.
Defined.

Lemma addprize_sets_prize_witness :
  (redeem ascii_upper (addprize "1" ascii_upper bot_code_a 1 ["a"; "gold"; "watch"]).2
     (tg 42 "ann") ["a"] noon).1 = RSuccess "A" "gold watch".
Proof.
  destruct (addprize_sets_prize "1" ascii_upper bot_code_a 1 "a" "gold" ["watch"] eq_refl)
    as (_ & _ & H).
  destruct (H (new_code "2024-01-01T00:00:00")) as (_ & _ & _ & _ & _ & H');
    [vm_compute; reflexivity|].
  apply H'; [reflexivity|vm_compute; reflexivity].
Defined.

Lemma stats_report_bounds_witness :
  stats "1" bot_claimed 1 = StReport report_claimed ∧
  (success_rate report_claimed <= 100)%Q.
Proof.
  assert (H : stats "1" bot_claimed 1 = StReport report_claimed)
    by (vm_compute; reflexivity).
  split; [exact H|].
  destruct (stats_report_bounds "1" bot_claimed 1 report_claimed H)
    as (_ & _ & _ & _ & _ & _ & _ & Hrate).
  exact Hrate.
Defined.

Lemma stats_active_users_witness :
  ∃ r, stats "1" bot_claimed_ban43 1 = StReport r ∧ active_users r = 0%Z.
Proof.
  eexists. split; [vm_compute; reflexivity|].
  erewrite (stats_active_users "1" bot_claimed_ban43 1).
  - vm_compute; reflexivity.
  - vm_compute; reflexivity.
  - vm_compute. apply NoDup_singleton.
Defined.

Lemma leaderboard_board_witness :
  ∃ rows, leaderboard bot_claimed (map_to_list (users bot_claimed)) = LBoard rows ∧
          rows ≠ [].
Proof.
  eexists. split; [vm_compute; reflexivity|].
  eapply (leaderboard_board bot_claimed (map_to_list (users bot_claimed)));
    [reflexivity|vm_compute; reflexivity].
Defined.

Lemma leaderboard_replies_witness :
  leaderboard (resetgiveaway "1" bot_claimed 1).2
    (map_to_list (users (resetgiveaway "1" bot_claimed 1).2)) = LNoWinners.
Proof.
  destruct (leaderboard_replies "1" bot_claimed (map_to_list (users bot_claimed)))
    as (_ & _ & _ & H); [reflexivity|].
  apply H; [reflexivity|apply users_claimed_not_empty|reflexivity].
Defined.

Lemma listcodes_lists_witness :
  ∃ lines,
    listcodes "1" bot_claimed 1 (map_to_list (codes bot_claimed)) = LcLines lines ∧
    length lines = size (codes bot_claimed).
Proof.
  destruct (listcodes_lists "1" bot_claimed 1 (map_to_list (codes bot_claimed)))
    as (_ & H & _); [reflexivity|reflexivity|].
  destruct H as (lines & H1 & H2 & _).
  - intros He. apply (f_equal (λ m, m !! "A")) in He. vm_compute in He.
    discriminate He.
  - apply bot_claimed_flag_iff.
  - by exists lines.
Defined.


(** ** Refusals and edge cases of the admin commands *)

Section Refusals.

Variable ADMIN_ID : string.
Variable py_int : string → option Z.
Variable upper : string → string.

(** X19.  An admin command either does its work or leaves the bot as it
    was: whenever the reply is not the one that announces the change
    (bad caller, missing argument, duplicate or unknown code, count that
    is not a number or above 50, own id, already or not banned), no
    document has changed and nothing was saved. *)
Theorem refusals_change_nothing b caller args :
  (∀ now reply b', addcode ADMIN_ID upper b caller args now = (reply, b') →
     (∀ code, reply ≠ AAdded code) → b' = b) ∧
  (∀ reply b', addprize ADMIN_ID upper b caller args = (reply, b') →
     (∀ code p, reply ≠ APrizeSet code p) → b' = b) ∧
  (∀ reply b', delcode ADMIN_ID upper b caller args = (reply, b') →
     (∀ code, reply ≠ ADeleted code) → b' = b) ∧
  (∀ draws now reply b',
     gencode ADMIN_ID py_int upper b caller args draws now = Some (reply, b') →
     (∀ n keys, reply ≠ GGenerated n keys) → b' = b) ∧
  (∀ reply b', ban_user ADMIN_ID b caller args = (reply, b') →
     (∀ a, reply ≠ BBanned a) → b' = b) ∧
  (∀ reply b', unban_user ADMIN_ID b caller args = (reply, b') →
     (∀ a, reply ≠ BUnbanned a) → b' = b) ∧
  (∀ reply b', resetgiveaway ADMIN_ID b caller = (reply, b') →
     reply ≠ AReset → b' = b).
Proof.
  split; [|split; [|split; [|split; [|split; [|split]]]]].
  - intros now reply b'. unfold addcode.
    destruct (is_admin ADMIN_ID caller); simpl; [|by intros [= <- <-]].
    destruct args as [|raw rest]; [by intros [= <- <-]|].
    destruct (codes b !! upper raw); [by intros [= <- <-]|].
    intros [= <- <-] H. by destruct (H (upper raw)).
  - intros reply b'. unfold addprize.
    destruct (is_admin ADMIN_ID caller); simpl; [|by intros [= <- <-]].
    destruct args as [|raw [|a rest]]; [by intros [= <- <-]..|].
    destruct (codes b !! upper raw); [|by intros [= <- <-]].
    intros [= <- <-] H. by destruct (H (upper raw) (join_space (a :: rest))).
  - intros reply b'. unfold delcode.
    destruct (is_admin ADMIN_ID caller); simpl; [|by intros [= <- <-]].
    destruct args as [|raw rest]; [by intros [= <- <-]|].
    destruct (codes b !! upper raw); [|by intros [= <- <-]].
    intros [= <- <-] H. by destruct (H (upper raw)).
  - intros draws now reply b' Hrun Hno.
    destruct (gencode_inv _ _ _ _ _ _ _ _ _ _ Hrun)
      as [[-> _]|(a0 & a1 & rest & n & keys & b1 & _ & _ & _ & _ & _ & -> & _)];
      [done|]. by destruct (Hno n keys).
  - intros reply b'. unfold ban_user.
    destruct (is_admin ADMIN_ID caller); simpl; [|by intros [= <- <-]].
    destruct args as [|a rest]; simpl; [by intros [= <- <-]|].
    destruct (decide (a = ADMIN_ID)); [by intros [= <- <-]|].
    destruct (decide (a ∈ banned_users b)); [by intros [= <- <-]|].
    intros [= <- <-] H. by destruct (H a).
  - intros reply b'. unfold unban_user.
    destruct (is_admin ADMIN_ID caller); simpl; [|by intros [= <- <-]].
    destruct args as [|a rest]; simpl; [by intros [= <- <-]|].
    destruct (decide (a ∈ banned_users b)); [|by intros [= <- <-]].
    intros [= <- <-] H. by destruct (H a).
  - intros reply b'. unfold resetgiveaway.
    destruct (is_admin ADMIN_ID caller); simpl; [|by intros [= <- <-]].
    by intros [= <- <-] H.
Qed.

(** X20.  [gencode] by the admin for a count of zero or less draws
    nothing, whatever the generator would give: it answers with the count
    as typed and an empty list, leaves the codes as they are, and still
    saves them. *)
Theorem gencode_no_codes_asked b caller a0 a1 rest n draws now :
  is_admin ADMIN_ID caller = true → py_int a0 = Some n → (n ≤ 0)%Z →
  gencode ADMIN_ID py_int upper b caller (a0 :: a1 :: rest) draws now =
    Some (GGenerated n [], save_codes b).
Proof.
  intros Hadm Hint Hn. unfold gencode. rewrite Hadm, Hint. simpl.
  assert (H50 : (50 <? n)%Z = false) by (apply Z.ltb_ge; lia).
  rewrite H50. by replace (Z.to_nat n) with 0%nat by lia.
Qed.

Lemma count_flag_reset (m : gmap string Code) :
  size (filter (λ kv : string * Code, redeemed kv.2 = true) (reset_code <$> m)) = 0.
Proof.
  apply map_size_empty_iff, map_empty. intros k.
  apply map_lookup_filter_None. right. intros c.
  rewrite lookup_fmap. destruct (m !! k); simpl; [|done].
  intros [= <-]. simpl. done.
Qed.

(** X21.  [resetgiveaway] by the admin keeps every code with its prize and
    creation date; after it no code names a redeemer and no history has a
    record; doing it again changes no document; and [stats], when there is
    a code, then reports no redeemed code, all codes available and a
    success rate of zero. *)
Theorem reset_clears_counts b caller :
  is_admin ADMIN_ID caller = true →
  let b1 := (resetgiveaway ADMIN_ID b caller).2 in
  let b2 := (resetgiveaway ADMIN_ID b1 caller).2 in
  (∀ k c, codes b !! k = Some c →
     ∃ c', codes b1 !! k = Some c' ∧ prize c' = prize c ∧
           created_date c' = created_date c) ∧
  (∀ k, codes b !! k = None → codes b1 !! k = None) ∧
  (∀ uid, claimed_by b1 uid = 0 ∧ history_len b1 uid = 0) ∧
  codes b2 = codes b1 ∧ users b2 = users b1 ∧
  banned_users b2 = banned_users b1 ∧
  (codes b ≠ ∅ →
     ∃ r, stats ADMIN_ID b1 caller = StReport r ∧
       total_codes r = size (codes b) ∧ redeemed_count r = 0 ∧
       available r = Z.of_nat (size (codes b)) ∧
       (success_rate r == 0)%Q).
Proof.
  intros Hadm b1 b2. subst b2 b1.
  rewrite !(resetgiveaway_admin _ _ _ Hadm). simpl.
  split; [|split; [|split; [|split; [|split; [|split]]]]].
  - intros k c Hk. exists (reset_code c). by rewrite lookup_fmap, Hk.
  - intros k Hk. by rewrite lookup_fmap, Hk.
  - intros uid. split.
    + unfold claimed_by. simpl. apply count_reset.
    + unfold history_len. simpl. rewrite lookup_fmap.
      by destruct (users b !! uid).
  - apply map_eq. intros k. rewrite !lookup_fmap.
    by destruct (codes b !! k).
  - apply map_eq. intros k. rewrite !lookup_fmap.
    by destruct (users b !! k).
  - done.
  - intros Hne. unfold stats, truediv. rewrite Hadm. cbv [negb]. simpl.
    rewrite count_flag_reset, map_size_fmap.
    destruct (size (codes b)) as [|n] eqn:E.
    + by apply map_size_empty_iff in E.
    + eexists. split; [reflexivity|]. simpl.
      split; [done|]. split; [done|]. split; [lia|].
      unfold Qdiv. by rewrite !Qmult_0_l.
Qed.

End Refusals.

Lemma refusals_change_nothing_witness :
  (addcode "1" ascii_upper bot_claimed 1 ["a"] "2024-01-04T00:00:00").2 = bot_claimed.
Proof.
  destruct (refusals_change_nothing "1" int_2digits ascii_upper bot_claimed 1 ["a"])
    as (H & _).
  apply (H "2024-01-04T00:00:00" (AExists "A")).
  - vm_compute; reflexivity.
  - discriminate.
Defined.

Lemma gencode_no_codes_asked_witness :
  gencode "1" int_2digits ascii_upper bot_claimed 1 ["0"; "x"] three_draws midnight =
    Some (GGenerated 0 [], save_codes bot_claimed).
Proof.
  apply gencode_no_codes_asked; [reflexivity|reflexivity|lia].
Defined.

Lemma reset_clears_counts_witness :
  claimed_by (resetgiveaway "1" bot_claimed 1).2 "42" = 0 ∧
  history_len (resetgiveaway "1" bot_claimed 1).2 "42" = 0.
Proof.
  destruct (reset_clears_counts "1" bot_claimed 1 eq_refl) as (_ & _ & H & _).
  apply H.
Defined.
